(** * LinkedIn post generator: a shallow embedding of [backend/app.py]

    The program is a small retrieval-augmented generation pipeline behind
    one HTTP route.  What it computes itself is string handling, exception
    handling and the order of its calls to outside services; the services
    (HTTP lookup, vector index, generation model, the agent's model) are
    the fields of a [World], each a function from the call's arguments to
    the call's outcome.  A computation is its outcome, a value or a raised
    exception, together with the chronological list of the observable
    events it caused: service calls and log lines.

    Layout: the embedding of the source, class by class; the worlds and
    requests used in examples; the predicates the statements use; then the
    properties. *)

From Stdlib Require Import String Ascii List ZArith NArith Bool Lia.
From Stdlib Require DecimalString.
Import ListNotations.
Local Open Scope list_scope.
Local Open Scope string_scope.

(** ** Exceptions *)

(** The exception classes the program names or can meet, with the part of
    Python's class hierarchy that decides which [except] clause matches. *)
Inductive exn_class : Type :=
  | Exception
  | ValueError
  | TypeError
  | KeyError
  | AttributeError
  | NotImplementedError
  | EnvironmentError            (* alias of OSError *)
  | JSONDecodeError             (* json.JSONDecodeError(ValueError) *)
  | RequestException            (* requests.RequestException(IOError) *)
  | HTTPError                   (* requests.HTTPError(RequestException) *)
  | Timeout                     (* requests.Timeout(RequestException) *)
  | RequestsJSONDecodeError     (* requests.JSONDecodeError(InvalidJSONError, json.JSONDecodeError) *)
  | OutputParserException       (* langchain: OutputParserException(ValueError) *)
  | HTTPException               (* werkzeug.exceptions.HTTPException(Exception) *)
  | ProviderError.              (* an error class of the model provider, derived from Exception only *)

Definition exn_class_eqb (a b : exn_class) : bool :=
  match a, b with
  | Exception, Exception | ValueError, ValueError | TypeError, TypeError
  | KeyError, KeyError | AttributeError, AttributeError
  | NotImplementedError, NotImplementedError
  | EnvironmentError, EnvironmentError | JSONDecodeError, JSONDecodeError
  | RequestException, RequestException | HTTPError, HTTPError
  | Timeout, Timeout | RequestsJSONDecodeError, RequestsJSONDecodeError
  | OutputParserException, OutputParserException
  | HTTPException, HTTPException
  | ProviderError, ProviderError => true
  | _, _ => false
  end.

(** The class itself followed by its ancestors among the classes above. *)
Definition ancestors (c : exn_class) : list exn_class :=
  match c with
  | Exception => [Exception]
  | JSONDecodeError => [JSONDecodeError; ValueError; Exception]
  | RequestException => [RequestException; EnvironmentError; Exception]
  | HTTPError => [HTTPError; RequestException; EnvironmentError; Exception]
  | Timeout => [Timeout; RequestException; EnvironmentError; Exception]
  | RequestsJSONDecodeError =>
      [RequestsJSONDecodeError; RequestException; EnvironmentError;
       JSONDecodeError; ValueError; Exception]
  | OutputParserException => [OutputParserException; ValueError; Exception]
  | c => [c; Exception]
  end.

(** A raised exception: its class and [str(e)]. *)
Record exn : Type := mkExn { exn_cls : exn_class; exn_str : string }.

Definition isinstance (e : exn) (c : exn_class) : bool :=
  existsb (exn_class_eqb c) (ancestors (exn_cls e)).

(** [except (c1, c2, ...)] matches an exception that is an instance of one
    of the listed classes. *)
Definition matches (cs : list exn_class) (e : exn) : bool :=
  existsb (isinstance e) cs.

(** The outcome of a call: a value or a raised exception. *)
Inductive Result (A : Type) : Type :=
  | Ok (a : A)
  | Raise (e : exn).
Arguments Ok {A} a.
Arguments Raise {A} e.

(** ** Python values read from JSON *)

(** What [json.loads] builds.  Numbers are held as integers; an object
    keeps its members in document order. *)
#[local] Set Warnings "-register-all".
Inductive json : Type :=
  | JNull
  | JBool (b : bool)
  | JNum (n : Z)
  | JStr (s : string)
  | JArr (items : list json)
  | JObj (members : list (string * json)).

(** Python truth value, as [or] and [not] use it. *)
Definition truthy (v : json) : bool :=
  match v with
  | JNull => false
  | JBool b => b
  | JNum n => negb (n =? 0)%Z
  | JStr s => negb (s =? "")
  | JArr items => match items with [] => false | _ => true end
  | JObj members => match members with [] => false | _ => true end
  end.

(** A repeated member name keeps its last value. *)
Fixpoint member (k : string) (members : list (string * json)) : option json :=
  match members with
  | [] => None
  | (k', v) :: rest =>
      match member k rest with
      | Some w => Some w
      | None => if k =? k' then Some v else None
      end
  end.

Definition type_name (v : json) : string :=
  match v with
  | JNull => "NoneType"
  | JBool _ => "bool"
  | JNum _ => "int"
  | JStr _ => "str"
  | JArr _ => "list"
  | JObj _ => "dict"
  end.

(** [data.get(key)]: a dict answers with the value or [None]; any other
    value has no attribute [get]. *)
Definition py_get (data : json) (key : string) : Result json :=
  match data with
  | JObj members =>
      Ok (match member key members with Some v => v | None => JNull end)
  | other =>
      Raise (mkExn AttributeError
               ("'" ++ type_name other ++ "' object has no attribute 'get'"))
  end.

(** ** Events and the monad *)

Inductive log_level : Type := INFO | WARNING | ERROR.

Inductive event : Type :=
  | EvHttpGet (url : string)                       (* requests.get *)
  | EvIndexBuild (texts : list string)             (* FAISS.from_texts *)
  | EvIndexQuery (query : json) (k : nat)          (* similarity_search *)
  | EvModelCall (prompt : string)                  (* LLMChain.run *)
  | EvAgentStep (iteration : nat)                  (* one model call of the agent loop *)
  | EvToolCall (tool : string) (input : string)    (* the agent runs a tool *)
  | EvLog (level : log_level) (line : string).     (* logging.info / warning / error *)

Definition trace := list event.

Definition M (A : Type) : Type := (Result A * trace)%type.

Definition ret {A} (a : A) : M A := (Ok a, []).

Definition raise {A} (e : exn) : M A := (Raise e, []).

Definition bind {A B} (m : M A) (k : A -> M B) : M B :=
  match m with
  | (Ok a, evs) => let '(r, evs') := k a in (r, (evs ++ evs')%list)
  | (Raise e, evs) => (Raise e, evs)
  end.

Declare Scope py_scope.
Delimit Scope py_scope with py.
Notation "x <- m ;; k" := (bind m (fun x => k))
  (at level 100, m at next level, right associativity) : py_scope.
Notation "m ;; k" := (bind m (fun _ => k))
  (at level 100, right associativity) : py_scope.
Local Open Scope py_scope.

Definition emit (e : event) : M unit := (Ok tt, [e]).

(** [logging.info], [logging.warning], [logging.error].  [setup_logging]
    sets the level to INFO, so every such line is written. *)
Definition logging (lvl : log_level) (line : string) : M unit :=
  emit (EvLog lvl line).

(** The outcome of an outside call enters the monad as it is. *)
Definition lift {A} (r : Result A) : M A := (r, []).

(** [try: body  except cs as e: handler e]. *)
Definition try_except {A} (body : M A) (cs : list exn_class)
    (handler : exn -> M A) : M A :=
  match body with
  | (Ok a, evs) => (Ok a, evs)
  | (Raise e, evs) =>
      if matches cs e
      then let '(r, evs') := handler e in (r, (evs ++ evs')%list)
      else (Raise e, evs)
  end.

Definition result_of {A} (m : M A) : Result A := fst m.
Definition events_of {A} (m : M A) : trace := snd m.

(** [a or b], with [b] evaluated only when [a] is false. *)
Definition py_or (a : json) (b : M json) : M json :=
  if truthy a then ret a else b.

(** ** Strings *)

(** A Python [str] is held as its UTF-8 bytes. *)

Definition byte_of (c : ascii) : N := N_of_ascii c.

(** [str.isspace] for one character, by the length of its encoding.  The
    white-space characters are U+0009..U+000D, U+001C..U+0020, U+0085,
    U+00A0, U+1680, U+2000..U+200A, U+2028, U+2029, U+202F, U+205F and
    U+3000. *)
Definition is_space1 (a : ascii) : bool :=
  let n := byte_of a in
  ((9 <=? n) && (n <=? 13) || (28 <=? n) && (n <=? 32))%N.

Definition is_space2 (a b : ascii) : bool :=
  ((byte_of a =? 194) && ((byte_of b =? 133) || (byte_of b =? 160)))%N.

Definition is_space3 (a b c : ascii) : bool :=
  let x := byte_of a in
  let y := byte_of b in
  let z := byte_of c in
  ((x =? 225) && (y =? 154) && (z =? 128)
   || (x =? 226) && (y =? 128)
      && ((128 <=? z) && (z <=? 138) || (z =? 168) || (z =? 169) || (z =? 175))
   || (x =? 226) && (y =? 129) && (z =? 159)
   || (x =? 227) && (y =? 128) && (z =? 128))%N.

(** Drop the white space at the front of a byte list.  [sp2] and [sp3]
    receive the bytes in the order they stand in the list, so the same
    function serves for the reversed string. *)
Fixpoint drop_space (sp2 : ascii -> ascii -> bool)
    (sp3 : ascii -> ascii -> ascii -> bool) (s : list ascii) : list ascii :=
  match s with
  | a :: s1 =>
      if is_space1 a then drop_space sp2 sp3 s1
      else
        match s1 with
        | b :: s2 =>
            if sp2 a b then drop_space sp2 sp3 s2
            else
              match s2 with
              | c :: s3 => if sp3 a b c then drop_space sp2 sp3 s3 else s
              | [] => s
              end
        | [] => s
        end
  | [] => s
  end.

Definition lstrip_bytes (s : list ascii) : list ascii :=
  drop_space is_space2 is_space3 s.

Definition rstrip_bytes (s : list ascii) : list ascii :=
  rev (drop_space (fun b a => is_space2 a b)
                  (fun c b a => is_space3 a b c) (rev s)).

(** [s.strip()]. *)
Definition strip (s : string) : string :=
  string_of_list_ascii (rstrip_bytes (lstrip_bytes (list_ascii_of_string s))).

(** [sep.join(parts)]. *)
Fixpoint join (sep : string) (parts : list string) : string :=
  match parts with
  | [] => ""
  | [p] => p
  | p :: rest => p ++ sep ++ join sep rest
  end.

(** [s.startswith(p)]. *)
Definition startswith (s p : string) : bool := String.prefix p s.

Fixpoint lookup {A} (k : string) (kw : list (string * A)) : option A :=
  match kw with
  | [] => None
  | (k', v) :: rest => if String.eqb k k' then Some v else lookup k rest
  end.

(** [template.format] applied to keyword arguments [kw], for templates whose replacement fields are
    plain names: [{name}] is replaced by the value bound to [name], [{{]
    and [}}] stand for one brace.  [field] holds the name being read while
    inside braces. *)
Fixpoint format_go (kw : list (string * string)) (field : option string)
    (s : string) : Result string :=
  match s with
  | EmptyString =>
      match field with
      | None => Ok ""
      | Some _ => Raise (mkExn ValueError "expected '}' before end of string")
      end
  | String c s1 =>
      match field with
      | Some name =>
          if Ascii.eqb c "}" then
            match lookup name kw with
            | Some v =>
                match format_go kw None s1 with
                | Ok r => Ok (v ++ r)
                | Raise e => Raise e
                end
            | None => Raise (mkExn KeyError ("'" ++ name ++ "'"))
            end
          else format_go kw (Some (name ++ String c "")) s1
      | None =>
          let literal :=
            match format_go kw None s1 with
            | Ok r => Ok (String c r)
            | Raise e => Raise e
            end in
          if Ascii.eqb c "{" then
            match s1 with
            | String "{" s2 =>
                match format_go kw None s2 with
                | Ok r => Ok (String "{" r)
                | Raise e => Raise e
                end
            | _ => format_go kw (Some "") s1
            end
          else if Ascii.eqb c "}" then
            match s1 with
            | String "}" s2 =>
                match format_go kw None s2 with
                | Ok r => Ok (String "}" r)
                | Raise e => Raise e
                end
            | _ => Raise (mkExn ValueError "Single '}' encountered in format string")
            end
          else literal
      end
  end.

Definition format (template : string) (kw : list (string * string))
    : Result string :=
  format_go kw None template.

(** ** The outside world *)

(** What [requests.get] hands back. *)
Record http_response : Type := mkHttpResponse {
  status_code : Z;
  json_body : Result json       (* the outcome of [response.json()] *)
}.

(** [response.raise_for_status()]. *)
Definition raise_for_status (r : http_response) : Result unit :=
  if ((400 <=? status_code r) && (status_code r <? 600))%Z
  then Raise (mkExn HTTPError "HTTP error")
  else Ok tt.

Record Document : Type := mkDocument { page_content : string }.

(** One decision of the agent's model, after the output parser. *)
Inductive agent_decision : Type :=
  | AgentFinish (output : string)
  | AgentAction (tool : string) (tool_input : string)
  | Unparsable (text : string).

(** A step of the agent's transcript: the action taken and what came back. *)
Record agent_step : Type := mkStep {
  step_tool : string;
  step_input : string;
  observation : json
}.

Record World : Type := mkWorld {
  (** [requests.get(url, timeout=10)] *)
  requests_get : string -> Result http_response;
  (** [FAISS.from_texts(texts, embedding)]: whether the build succeeds *)
  faiss_from_texts : list string -> Result unit;
  (** [db.similarity_search(query, k)] over an index built from [texts] *)
  similarity_search : list string -> json -> nat -> Result (list Document);
  (** the generation model, called on a formatted prompt *)
  llm_call : string -> Result string;
  (** the agent's model and output parser, on the question and transcript *)
  agent_model : string -> list agent_step -> Result agent_decision;
  (** [json.load] on a file of texts *)
  json_load_file : string -> Result (list string);
  (** [os.getenv("GOOGLE_API_KEY")] *)
  google_api_key : option string;
  (** [str(v)] for a list or a dict *)
  python_repr : json -> string
}.

(** [str(v)], which is also what an f-string and [str.format] put in for
    [v]: a string is itself, [None], booleans and integers are written
    out, and a list or a dict is written by the runtime. *)
Definition py_str (W : World) (v : json) : string :=
  match v with
  | JStr s => s
  | JNull => "None"
  | JBool true => "True"
  | JBool false => "False"
  | JNum n => DecimalString.NilZero.string_of_int (Z.to_int n)
  | other => python_repr W other
  end.

(** ** [load_environment] *)

Definition load_environment (W : World) : M unit :=
  match google_api_key W with
  | Some (String _ _) => ret tt
  | _ =>
      raise (mkExn EnvironmentError
               "Please set GOOGLE_API_KEY in your environment variables")
  end.

(** ** [class WebSearchTool] *)

Module WebSearchTool.

Record t : Type := mk { name : string; description : string }.

Definition new : t :=
    {| name := "web_search";
       description := "Search the web for the latest information related to a topic." |}.

Definition unable_to_fetch : string :=
    "Unable to fetch latest information. Using cached data instead.".

Definition temporarily_unavailable : string :=
    "Search functionality temporarily unavailable.".

Definition network_errors : list exn_class :=
    [RequestException; JSONDecodeError; KeyError].

Definition lookup_url (query : string) : string :=
    "https://api.duckduckgo.com/?q=" ++ query ++ "&format=json".

Definition _fallback_search (self : t) (query : string) : M json :=
    try_except
      (ret (JStr unable_to_fetch))
      network_errors
      (fun e =>
         logging ERROR ("Fallback search error: " ++ exn_str e);;
         ret (JStr temporarily_unavailable)).

Section WithWorld.
Context (W : World).

Definition _run (self : t) (query : string) : M json :=
      try_except
        (emit (EvHttpGet (lookup_url query));;
         response <- lift (requests_get W (lookup_url query));;
         lift (raise_for_status response);;
         data <- lift (json_body response);;
         abstract <- lift (py_get data "AbstractText");;
         py_or abstract (_fallback_search self query))
        network_errors
        (fun e =>
           logging ERROR ("Web search error: " ++ exn_str e);;
           _fallback_search self query).

Definition search (self : t) (query : string) : M json :=
      _run self query.

End WithWorld.

Definition _arun (self : t) (query : string) : M unit :=
    raise (mkExn NotImplementedError "This tool does not support async.").

End WebSearchTool.

(** ** [class VectorDB] *)

Record Embeddings : Type := mkEmbeddings { model_name : string }.

Record FAISS : Type := mkFAISS { index_texts : list string }.

Module VectorDB.

Record t : Type := mk { embeddings : Embeddings; db : option FAISS }.

Definition new (embeddings : Embeddings) : t :=
    {| embeddings := embeddings; db := None |}.

Definition _get_default_texts : list string :=
    [ "AI helps in personalized marketing campaigns and customer segmentation.";
      "Latest trends in AI for digital marketing and social media optimization.";
      "Data-driven marketing strategies using machine learning algorithms.";
      "Content optimization using natural language processing.";
      "Marketing automation and customer journey mapping with AI." ].

Section WithWorld.
Context (W : World).

Definition _load_texts (file_path : string) : M (list string) :=
      lift (json_load_file W file_path).

    (** The object is updated in place; the updated object is the result. *)
Definition initialize (self : t) (texts_file : option string) : M t :=
      texts <- match texts_file with
               | Some f => _load_texts f
               | None => ret _get_default_texts
               end;;
      try_except
        (emit (EvIndexBuild texts);;
         lift (faiss_from_texts W texts);;
         logging INFO "Vector database initialized successfully";;
         ret {| embeddings := embeddings self;
                db := Some {| index_texts := texts |} |})
        [Exception]
        (fun e =>
           logging ERROR ("Vector database initialization error: " ++ exn_str e);;
           raise e).

End WithWorld.

End VectorDB.

(** ** [class PostGenerator] *)

Record ChatModel : Type := mkChatModel { model : string; api_key : option string }.

Record PromptTemplate : Type := mkPromptTemplate {
  template : string;
  input_variables : list string
}.

(** [LLMChain(llm, prompt).run(inputs)]: the prompt is formatted with the
    inputs and the model is called on it once. *)
Definition LLMChain_run (W : World) (llm : ChatModel) (prompt : PromptTemplate)
    (inputs : list (string * string)) : M string :=
  text <- lift (format (template prompt) inputs);;
  emit (EvModelCall text);;
  lift (llm_call W text).

Module PostGenerator.

Definition _create_prompt_template : PromptTemplate :=
    {| template := "
            Create a professional LinkedIn post following these guidelines:
            Topic: {topic}
            Tone: {tone}
            Target Audience: {audience}
            
            Latest Information to include:
            {latest_info}
            
            Additional Context:
            {context}
            
            Content Structure:
            • Opening:
              - Start with attention-grabbing hook using emojis and question/statistic
              - Set up context and establish thought leadership
              - Create urgency around the topic
            
            • Body:
              - Include 3-4 data-backed statistics/insights with source citations
              - Structure in clear 2-3 sentence paragraphs with bullet points
              - Use industry-specific terminology matched to audience expertise level
              - Add strategic emojis to highlight key points (2-3 per paragraph)
              - Include real-world examples and case studies
              - Address common pain points and solutions
              - Incorporate trending industry keywords
            
            • Closing:
              - End with compelling call-to-action
              - Include 2 discussion questions to drive engagement
              - Add 5-6 strategic hashtags (mix of trending/niche/branded)
              - Provide 3 key takeaways or actionable tips
              - Include invitation to connect/follow for more insights
            
            Formatting Guidelines:
            • Length: 1000-2000 characters optimized for LinkedIn algorithm
            • Use strategic line breaks and spacing for readability
            • Match tone precisely to audience expectations
            • Technical depth calibrated to audience expertise
            • Include numbered lists and bullet points for scalability
            • Use bold text for key phrases and statistics
            • Add relevant mentions and tags where appropriate
            
            Engagement Optimization:
            • Front-load key insights in first 2-3 lines
            • Include controversy or unique perspective to drive comments
            • Ask questions throughout to encourage interaction
            • Use power words and emotional triggers
            • Add relevant external links in first comment
            • Time post for optimal engagement window
            
            Summary:
            Create a data-driven, highly engaging post that establishes authority while driving meaningful discussion and audience growth through strategic formatting and psychology-based engagement tactics.
            ";
       input_variables := ["topic"; "tone"; "audience"; "latest_info"; "context"] |}.

Record t : Type := mk {
    llm : ChatModel;
    vector_db : VectorDB.t;
    prompt : PromptTemplate
  }.

Definition new (llm : ChatModel) (vector_db : VectorDB.t) : t :=
    {| llm := llm; vector_db := vector_db; prompt := _create_prompt_template |}.

Section WithWorld.
Context (W : World).

(** The three fields arrive as the Python values the view read from the
    request body; nothing on the way checks that they are strings. *)
Definition generate (self : t) (topic tone audience : json)
        (latest_info : string) : M string :=
      match VectorDB.db (vector_db self) with
      | None =>
          raise (mkExn AttributeError
                   "'NoneType' object has no attribute 'similarity_search'")
      | Some index =>
          emit (EvIndexQuery topic 3);;
          vector_results <- lift (similarity_search W (index_texts index) topic 3);;
          let context := join " " (map page_content vector_results) in
          post_content <- LLMChain_run W (llm self) (prompt self)
                            [ ("topic", py_str W topic);
                              ("tone", py_str W tone);
                              ("audience", py_str W audience);
                              ("latest_info", latest_info);
                              ("context", context) ];;
          ret (strip post_content)
      end.

End WithWorld.

End PostGenerator.

(** ** The agent *)

(** [Tool(name, func, description)]. *)
Record Tool : Type := mkTool {
  tool_name : string;
  tool_func : string -> M json;
  tool_description : string
}.

Record AgentExecutor : Type := mkAgentExecutor {
  tools : list Tool;
  max_iterations : nat;
  handle_parsing_errors : bool;
  verbose : bool;
  memory_key : string
}.

Fixpoint find_tool (n : string) (ts : list Tool) : option Tool :=
  match ts with
  | [] => None
  | t :: rest => if n =? tool_name t then Some t else find_tool n rest
  end.

Definition stopped_response : string :=
  "Agent stopped due to iteration limit or time limit.".

Definition invalid_response : string := "Invalid or incomplete response".

(** Modelled from the spec: the tool-use loop that [initialize_agent]
    returns, which belongs to the agent framework and is not part of the
    source file.  Sections 4.3 and 9 describe it as an explicit
    finite-iteration loop with a counter, a transcript and a termination
    predicate: each iteration asks the model once; a final answer ends the
    run; an action runs the named tool once and records the observation;
    when the counter reaches the cap the run stops.  [remaining] is the
    cap minus the counter [iteration]. *)
Fixpoint agent_loop (W : World) (ex : AgentExecutor) (question : string)
    (remaining iteration : nat) (steps : list agent_step) : M string :=
  match remaining with
  | O => ret stopped_response
  | S remaining' =>
      emit (EvAgentStep iteration);;
      decision <- lift (agent_model W question steps);;
      match decision with
      | AgentFinish output => ret output
      | AgentAction tool tool_input =>
          obs <- match find_tool tool (tools ex) with
                 | Some t =>
                     emit (EvToolCall tool tool_input);;
                     tool_func t tool_input
                 | None =>
                     ret (JStr (tool ++ " is not a valid tool, try one of ["
                                  ++ join ", " (map tool_name (tools ex)) ++ "]."))
                 end;;
          agent_loop W ex question remaining' (S iteration)
            (steps ++ [mkStep tool tool_input obs])%list
      | Unparsable text =>
          if handle_parsing_errors ex then
            agent_loop W ex question remaining' (S iteration)
              (steps ++ [mkStep "_Exception" text (JStr invalid_response)])%list
          else raise (mkExn OutputParserException
                        ("Could not parse LLM output: " ++ text))
      end
  end.

(** [agent.run(question)]. *)
Definition agent_run (W : World) (ex : AgentExecutor) (question : string)
    : M string :=
  agent_loop W ex question (max_iterations ex) 0 [].

(** ** [class LinkedInPostGenerator] *)

Module LinkedInPostGenerator.

Record t : Type := mk {
  embeddings : Embeddings;
  llm : ChatModel;
  memory : string;                       (* the memory key of the buffer *)
  vector_db : VectorDB.t;
  post_generator : PostGenerator.t;
  web_search_tool : WebSearchTool.t;
  agent : AgentExecutor
}.

Definition caught : list exn_class := [ValueError; TypeError; KeyError].

Section WithWorld.
Context (W : World).

(** Returns the tool object it stores in [self] together with the agent. *)
Definition _setup_agent (llm : ChatModel) (memory : string)
    : WebSearchTool.t * AgentExecutor :=
  let web_search_tool := WebSearchTool.new in
  let tools :=
    [ {| tool_name := "Web Search";
         tool_func := WebSearchTool.search W web_search_tool;
         tool_description := "Search for latest information about topics" |} ] in
  (web_search_tool,
   {| tools := tools;
      max_iterations := 3;
      handle_parsing_errors := true;
      verbose := true;
      memory_key := memory |}).

(** [LinkedInPostGenerator()]. *)
Definition __init__ : M t :=
  let embeddings := {| model_name := "sentence-transformers/all-MiniLM-L6-v2" |} in
  let llm := {| model := "gemini-1.5-flash-002"; api_key := google_api_key W |} in
  let memory := "chat_history" in
  let vector_db := VectorDB.new embeddings in
  vector_db <- VectorDB.initialize W vector_db None;;
  let post_generator := PostGenerator.new llm vector_db in
  let '(web_search_tool, agent) := _setup_agent llm memory in
  ret {| embeddings := embeddings;
         llm := llm;
         memory := memory;
         vector_db := vector_db;
         post_generator := post_generator;
         web_search_tool := web_search_tool;
         agent := agent |}.

Definition fallback_info (topic : string) : string :=
  "Based on industry trends and analysis, here are key insights about "
    ++ topic ++ "...".

Definition _get_latest_info (self : t) (topic : json) : M string :=
  try_except
    (agent_run W (agent self)
       ("Find recent updates or insights on " ++ py_str W topic))
    caught
    (fun e =>
       logging WARNING ("Agent execution error: " ++ exn_str e);;
       ret (fallback_info (py_str W topic))).

Definition generate_post (self : t) (topic tone audience : json) : M string :=
  try_except
    (latest_info <- _get_latest_info self topic;;
     PostGenerator.generate W (post_generator self) topic tone audience latest_info)
    caught
    (fun e =>
       logging ERROR ("Post generation error: " ++ exn_str e);;
       raise e).

End WithWorld.

End LinkedInPostGenerator.

(** ** The route [/generate-post] *)

(** What [request.get_json()] meets: a body that parses to a JSON value,
    or a request the framework refuses (no JSON content type, or a body
    that is not JSON) by raising an HTTP exception. *)
Inductive payload : Type :=
  | Parsed (data : json)
  | Refused (description : string).

Record request : Type := mkRequest {
  method : string;
  payload_of : payload
}.

(** [request.get_json()]. *)
Definition get_json (req : request) : Result json :=
  match payload_of req with
  | Parsed data => Ok data
  | Refused description => Raise (mkExn HTTPException description)
  end.

(** What the view returns: [jsonify(body), status]. *)
Record response : Type := mkResponse { body : json; status : Z }.

(** [not v]. *)
Definition py_not (v : json) : bool := negb (truthy v).

Section Route.
Context (W : World).

Definition generate_post (req : request) : M response :=
  if method req =? "OPTIONS" then
    ret {| body := JObj [("status", JStr "ok")]; status := 200 |}
  else
    try_except
      (data <- lift (get_json req);;
       topic <- lift (py_get data "topic");;
       tone <- lift (py_get data "tone");;
       audience <- lift (py_get data "audience");;
       (if py_not topic || py_not tone || py_not audience
        then raise (mkExn ValueError "Topic, tone, and audience are required")
        else ret tt);;
       generator <- LinkedInPostGenerator.__init__ W;;
       post <- LinkedInPostGenerator.generate_post W generator
                 topic tone audience;;
       ret {| body := JObj [("status", JStr "success"); ("post", JStr post)];
              status := 200 |})
      LinkedInPostGenerator.caught
      (fun e =>
         logging ERROR ("API error: " ++ exn_str e);;
         ret {| body := JObj [("status", JStr "error"); ("message", JStr (exn_str e))];
                status := 500 |}).

(** The web framework calls the view once per request, in order; an
    exception that leaves the view ends that request only. *)
Fixpoint serve (reqs : list request) : list (Result response) * trace :=
  match reqs with
  | [] => ([], [])
  | req :: rest =>
      let '(r, evs) := generate_post req in
      let '(rs, evs') := serve rest in
      (r :: rs, (evs ++ evs')%list)
  end.

(** The program: [setup_logging(); load_environment(); app.run(...)],
    serving the requests that arrive. *)
Definition main (reqs : list request) : M (list (Result response)) :=
  load_environment W;;
  (Ok (fst (serve reqs)), snd (serve reqs)).

End Route.

(** ** Worlds used in examples *)

Definition abstract_response (text : string) : http_response :=
  {| status_code := 200;
     json_body := Ok (JObj [("Heading", JStr "AI"); ("AbstractText", JStr text)]) |}.

(** Every service answers: the lookup has an abstract, the index returns
    its first [k] texts, the agent searches once and then answers. *)
Definition calm_world : World :=
  {| requests_get := fun _ => Ok (abstract_response "AI adoption in marketing keeps growing.");
     faiss_from_texts := fun _ => Ok tt;
     similarity_search := fun texts _ k => Ok (map mkDocument (firstn k texts));
     llm_call := fun _ => Ok "  AI is changing marketing. #AI
";
     agent_model := fun _ steps =>
       match steps with
       | [] => Ok (AgentAction "Web Search" "AI in marketing")
       | _ => Ok (AgentFinish "AI adoption keeps growing.")
       end;
     json_load_file := fun _ => Ok [];
     google_api_key := Some "key";
     python_repr := fun _ => "[]" |}.

Definition with_requests_get (W : World) (f : string -> Result http_response)
    : World :=
  {| requests_get := f;
     faiss_from_texts := faiss_from_texts W;
     similarity_search := similarity_search W;
     llm_call := llm_call W;
     agent_model := agent_model W;
     json_load_file := json_load_file W;
     google_api_key := google_api_key W;
     python_repr := python_repr W |}.

Definition with_llm_call (W : World) (f : string -> Result string) : World :=
  {| requests_get := requests_get W;
     faiss_from_texts := faiss_from_texts W;
     similarity_search := similarity_search W;
     llm_call := f;
     agent_model := agent_model W;
     json_load_file := json_load_file W;
     google_api_key := google_api_key W;
     python_repr := python_repr W |}.

Definition with_agent_model (W : World)
    (f : string -> list agent_step -> Result agent_decision) : World :=
  {| requests_get := requests_get W;
     faiss_from_texts := faiss_from_texts W;
     similarity_search := similarity_search W;
     llm_call := llm_call W;
     agent_model := f;
     json_load_file := json_load_file W;
     google_api_key := google_api_key W;
     python_repr := python_repr W |}.

(** The lookup service times out. *)
Definition timeout_world : World :=
  with_requests_get calm_world
    (fun _ => Raise (mkExn Timeout "Read timed out. (read timeout=10)")).

(** The lookup service answers 503. *)
Definition unavailable_world : World :=
  with_requests_get calm_world
    (fun _ => Ok {| status_code := 503;
                    json_body := Raise (mkExn RequestsJSONDecodeError "Expecting value") |}).

(** The lookup service answers with a page that is not JSON. *)
Definition html_world : World :=
  with_requests_get calm_world
    (fun _ => Ok {| status_code := 200;
                    json_body := Raise (mkExn RequestsJSONDecodeError
                                          "Expecting value: line 1 column 1 (char 0)") |}).

(** The lookup service knows nothing: the abstract is the empty string. *)
Definition no_abstract_world : World :=
  with_requests_get calm_world (fun _ => Ok (abstract_response "")).

(** The lookup service answers with a JSON array. *)
Definition array_world : World :=
  with_requests_get calm_world
    (fun _ => Ok {| status_code := 200; json_body := Ok (JArr []) |}).

(** The abstract text happens to be the wording of the second fallback. *)
Definition echo_world : World :=
  with_requests_get calm_world
    (fun _ => Ok (abstract_response WebSearchTool.temporarily_unavailable)).

(** The generation model answers with white space only. *)
Definition blank_world : World :=
  with_llm_call calm_world (fun _ => Ok "   ").

(** The generation model rejects the call with a value error. *)
Definition rejecting_world : World :=
  with_llm_call calm_world
    (fun _ => Raise (mkExn ValueError "API key not valid. Please pass a valid API key.")).

(** The agent's model fails with an error of the provider's own class. *)
Definition provider_down_world : World :=
  with_agent_model calm_world
    (fun _ _ => Raise (mkExn ProviderError "429 Resource has been exhausted")).

(** The agent's model fails with a value error. *)
Definition agent_value_error_world : World :=
  with_agent_model calm_world
    (fun _ _ => Raise (mkExn ValueError "unexpected model output")).

(** The agent's model never gives a final answer. *)
Definition restless_world : World :=
  with_agent_model calm_world
    (fun q _ => Ok (AgentAction "Web Search" q)).

Definition post_request (members : list (string * json)) : request :=
  {| method := "POST"; payload_of := Parsed (JObj members) |}.

Definition valid_request : request :=
  post_request [ ("topic", JStr "AI in marketing");
                 ("tone", JStr "professional");
                 ("audience", JStr "marketers") ].

Definition empty_topic_request : request :=
  post_request [ ("topic", JStr "");
                 ("tone", JStr "professional");
                 ("audience", JStr "marketers") ].

Definition missing_tone_request : request :=
  post_request [ ("topic", JStr "AI in marketing");
                 ("audience", JStr "marketers") ].

(** A topic that is a number: truthy, so it passes validation. *)
Definition numeric_topic_request : request :=
  post_request [ ("topic", JNum 2024);
                 ("tone", JStr "plain");
                 ("audience", JStr "everyone") ].

(** A body that is JSON but not an object, and a request without JSON. *)
Definition array_body_request : request :=
  {| method := "POST"; payload_of := Parsed (JArr []) |}.

Definition no_json_request : request :=
  {| method := "POST";
     payload_of := Refused "415 Unsupported Media Type" |}.

(** ** Counting events *)

Definition is_build (e : event) : bool :=
  match e with EvIndexBuild _ => true | _ => false end.

Definition is_query (e : event) : bool :=
  match e with EvIndexQuery _ _ => true | _ => false end.

Definition is_model_call (e : event) : bool :=
  match e with EvModelCall _ => true | _ => false end.

Definition is_agent_step (e : event) : bool :=
  match e with EvAgentStep _ => true | _ => false end.

Definition is_tool_call (e : event) : bool :=
  match e with EvToolCall _ _ => true | _ => false end.

Definition is_http_get (e : event) : bool :=
  match e with EvHttpGet _ => true | _ => false end.

Definition is_log (e : event) : bool :=
  match e with EvLog _ _ => true | _ => false end.

Definition is_service_call (e : event) : bool := negb (is_log e).

Definition count (p : event -> bool) (tr : trace) : nat :=
  List.length (filter p tr).

(** What [data.get(key)] gives the view for a request whose body is a
    JSON object; [None] stands in where there is no such body. *)
Definition field (req : request) (key : string) : json :=
  match payload_of req with
  | Parsed (JObj members) =>
      match member key members with Some v => v | None => JNull end
  | _ => JNull
  end.

Definition has_object_body (req : request) : bool :=
  match payload_of req with
  | Parsed (JObj _) => true
  | _ => false
  end.

(** A request that passes the view's validation and reaches the generator. *)
Definition accepted (req : request) : bool :=
  negb (method req =? "OPTIONS")
  && has_object_body req
  && negb (py_not (field req "topic") || py_not (field req "tone")
           || py_not (field req "audience")).

(** ** Predicates used in the statements *)

(** The four ways a call to [search] can end. *)
Inductive search_shape (W : World) (query : string) : M json -> Prop :=
  | shape_failed e :
      matches WebSearchTool.network_errors e = true ->
      search_shape W query
        (Ok (JStr WebSearchTool.unable_to_fetch),
         [EvHttpGet (WebSearchTool.lookup_url query);
          EvLog ERROR ("Web search error: " ++ exn_str e)])
  | shape_empty :
      search_shape W query
        (Ok (JStr WebSearchTool.unable_to_fetch),
         [EvHttpGet (WebSearchTool.lookup_url query)])
  | shape_live resp data v :
      requests_get W (WebSearchTool.lookup_url query) = Ok resp ->
      json_body resp = Ok data ->
      py_get data "AbstractText" = Ok v ->
      truthy v = true ->
      search_shape W query (Ok v, [EvHttpGet (WebSearchTool.lookup_url query)])
  | shape_escaped e :
      matches WebSearchTool.network_errors e = false ->
      search_shape W query (Raise e, [EvHttpGet (WebSearchTool.lookup_url query)]).


(** A run of white-space characters, as encoded bytes. *)
Inductive white (sp2 : ascii -> ascii -> bool)
    (sp3 : ascii -> ascii -> ascii -> bool) : list ascii -> Prop :=
  | white_nil : white sp2 sp3 []
  | white_1 a l :
      is_space1 a = true -> white sp2 sp3 l -> white sp2 sp3 (a :: l)
  | white_2 a b l :
      sp2 a b = true -> white sp2 sp3 l -> white sp2 sp3 (a :: b :: l)
  | white_3 a b c l :
      sp3 a b c = true -> white sp2 sp3 l -> white sp2 sp3 (a :: b :: c :: l).

Definition white_front : list ascii -> Prop := white is_space2 is_space3.

(** The same run read from the end of the string. *)
Definition white_back (r : list ascii) : Prop :=
  white (fun b a => is_space2 a b) (fun c b a => is_space3 a b c) (rev r).


(** The literal stretches of a template, between its replacement fields. *)
Fixpoint literal_parts_go (s : string) (inside : bool) (cur : string)
    : list string :=
  match s with
  | EmptyString => [cur]
  | String c s1 =>
      if inside then
        if Ascii.eqb c "}" then literal_parts_go s1 false ""
        else literal_parts_go s1 true cur
      else if Ascii.eqb c "{" then cur :: literal_parts_go s1 true ""
      else literal_parts_go s1 false (cur ++ String c "")
  end.

Definition literal_parts (s : string) : list string :=
  literal_parts_go s false "".

(** The prompt the generation model is to receive: the template's literal
    stretches with the five values put between them, in the order of the
    fields in the template. *)
Definition prompt_text (topic tone audience latest_info context : string)
    : string :=
  match literal_parts (template PostGenerator._create_prompt_template) with
  | [s0; s1; s2; s3; s4; s5] =>
      s0 ++ topic ++ s1 ++ tone ++ s2 ++ audience ++ s3
         ++ latest_info ++ s4 ++ context ++ s5
  | _ => ""
  end.

(** The generator that [LinkedInPostGenerator()] returns when the index
    build succeeds. *)
Definition built_generator (W : World) : LinkedInPostGenerator.t :=
  let embeddings := {| model_name := "sentence-transformers/all-MiniLM-L6-v2" |} in
  let llm := {| model := "gemini-1.5-flash-002"; api_key := google_api_key W |} in
  let vector_db :=
    {| VectorDB.embeddings := embeddings;
       VectorDB.db := Some {| index_texts := VectorDB._get_default_texts |} |} in
  {| LinkedInPostGenerator.embeddings := embeddings;
     LinkedInPostGenerator.llm := llm;
     LinkedInPostGenerator.memory := "chat_history";
     LinkedInPostGenerator.vector_db := vector_db;
     LinkedInPostGenerator.post_generator := PostGenerator.new llm vector_db;
     LinkedInPostGenerator.web_search_tool := WebSearchTool.new;
     LinkedInPostGenerator.agent :=
       snd (LinkedInPostGenerator._setup_agent W llm "chat_history") |}.

(** The question the agent is asked about a topic. *)
Definition agent_question (topic : string) : string :=
  "Find recent updates or insights on " ++ topic.

(** The events an agent run of this program can cause. *)
Definition agent_event (e : event) : bool :=
  is_agent_step e || is_tool_call e || is_http_get e || is_log e.

(** A member that is absent, null or the empty string. *)
Definition missing_or_empty (v : option json) : Prop :=
  v = None \/ v = Some JNull \/ v = Some (JStr "").

(** The two bodies the view builds itself. *)
Definition error_response (message : string) : response :=
  {| body := JObj [("status", JStr "error"); ("message", JStr message)];
     status := 500 |}.

Definition success_response (post : string) : response :=
  {| body := JObj [("status", JStr "success"); ("post", JStr post)];
     status := 200 |}.

(** What the view runs for a request that passed validation. *)
Definition pipeline (W : World) (req : request) : M string :=
  generator <- LinkedInPostGenerator.__init__ W;;
  LinkedInPostGenerator.generate_post W generator
    (field req "topic") (field req "tone") (field req "audience").

(** ** Further worlds and predicates *)

Definition with_faiss_from_texts (W : World) (f : list string -> Result unit)
    : World :=
  {| requests_get := requests_get W;
     faiss_from_texts := f;
     similarity_search := similarity_search W;
     llm_call := llm_call W;
     agent_model := agent_model W;
     json_load_file := json_load_file W;
     google_api_key := google_api_key W;
     python_repr := python_repr W |}.

Definition with_similarity_search (W : World)
    (f : list string -> json -> nat -> Result (list Document)) : World :=
  {| requests_get := requests_get W;
     faiss_from_texts := faiss_from_texts W;
     similarity_search := f;
     llm_call := llm_call W;
     agent_model := agent_model W;
     json_load_file := json_load_file W;
     google_api_key := google_api_key W;
     python_repr := python_repr W |}.

Definition with_json_load_file (W : World)
    (f : string -> Result (list string)) : World :=
  {| requests_get := requests_get W;
     faiss_from_texts := faiss_from_texts W;
     similarity_search := similarity_search W;
     llm_call := llm_call W;
     agent_model := agent_model W;
     json_load_file := f;
     google_api_key := google_api_key W;
     python_repr := python_repr W |}.

Definition with_google_api_key (W : World) (k : option string) : World :=
  {| requests_get := requests_get W;
     faiss_from_texts := faiss_from_texts W;
     similarity_search := similarity_search W;
     llm_call := llm_call W;
     agent_model := agent_model W;
     json_load_file := json_load_file W;
     google_api_key := k;
     python_repr := python_repr W |}.

(** The lookup service repeats the member and gives a number last. *)
Definition number_abstract_world : World :=
  with_requests_get calm_world
    (fun _ => Ok {| status_code := 200;
                    json_body := Ok (JObj [("AbstractText", JStr "first");
                                           ("AbstractText", JNum 42)]) |}).

(** The HTTP library fails with an error that is not a request error. *)
Definition type_error_world : World :=
  with_requests_get calm_world
    (fun _ => Raise (mkExn TypeError "expected string or bytes-like object")).

(** The index cannot be built: a value error, or the provider's error. *)
Definition build_value_error_world : World :=
  with_faiss_from_texts calm_world
    (fun _ => Raise (mkExn ValueError "embedding dimension mismatch")).

Definition build_provider_error_world : World :=
  with_faiss_from_texts calm_world
    (fun _ => Raise (mkExn ProviderError "model download failed")).

(** The index cannot be queried. *)
Definition query_failure_world : World :=
  with_similarity_search calm_world
    (fun _ _ _ => Raise (mkExn ValueError "index is empty")).

(** A texts file with two entries, and one that cannot be opened. *)
Definition texts_file_world : World :=
  with_json_load_file calm_world
    (fun _ => Ok ["Quarterly report on AI."; "Notes on retail marketing."]).

Definition missing_file_world : World :=
  with_json_load_file calm_world
    (fun _ => Raise (mkExn EnvironmentError "No such file or directory")).

(** The generation model answers only a prompt that names the topic and
    carries the three texts, joined by single spaces, as its context. *)
Definition careful_world : World :=
  with_llm_call calm_world
    (fun prompt =>
       match index 0 "Topic: AI in marketing" prompt,
             index 0 "AI helps in personalized marketing campaigns and customer segmentation. Latest trends in AI for digital marketing and social media optimization. Data-driven marketing strategies using machine learning algorithms." prompt with
       | Some _, Some _ => Ok "  AI is changing marketing. #AI
"
       | _, _ => Raise (mkExn ValueError "the prompt lacks the topic or the context")
       end).

(** The API key is not set. *)
Definition no_key_world : World := with_google_api_key calm_world None.

(** The texts [initialize] is to index: the file's, or the default ones. *)
Definition chosen_texts (W : World) (texts_file : option string)
    : Result (list string) :=
  match texts_file with
  | Some f => json_load_file W f
  | None => Ok VectorDB._get_default_texts
  end.

(** Whether a byte list begins with a white-space character. *)
Definition begins_with_space (sp2 : ascii -> ascii -> bool)
    (sp3 : ascii -> ascii -> ascii -> bool) (l : list ascii) : bool :=
  match l with
  | [] => false
  | a :: l1 =>
      is_space1 a
      || match l1 with
         | [] => false
         | b :: l2 =>
             sp2 a b
             || match l2 with
                | [] => false
                | c :: _ => sp3 a b c
                end
         end
  end.

Definition starts_with_space (s : string) : bool :=
  begins_with_space is_space2 is_space3 (list_ascii_of_string s).

Definition ends_with_space (s : string) : bool :=
  begins_with_space (fun b a => is_space2 a b) (fun c b a => is_space3 a b c)
    (rev (list_ascii_of_string s)).

(** * Properties *)

Arguments matches : simpl never.
Arguments WebSearchTool.lookup_url : simpl never.
Arguments String.append : simpl never.

Ltac run_monad :=
  unfold try_except, bind, emit, lift, logging, emit, ret, raise; cbn.

(** ** The web search tool *)

Section WebSearchFacts.
Context (W : World) (self : WebSearchTool.t) (query : string).
Import WebSearchTool.

Lemma fallback_search_ret :
  _fallback_search self query = (Ok (JStr unable_to_fetch), []).
Proof. reflexivity. Qed.

Lemma http_error_is_caught msg :
  matches network_errors (mkExn HTTPError msg) = true.
Proof. reflexivity. Qed.

Lemma search_has_shape : search_shape W query (search W self query).
Proof.
  unfold search, _run, py_or. run_monad.
  destruct (requests_get W (lookup_url query)) as [resp|e] eqn:Hget; cbn.
  - destruct (raise_for_status resp) as [[]|e] eqn:Hst; cbn.
    + destruct (json_body resp) as [data|e] eqn:Hjs; cbn.
      * destruct (py_get data "AbstractText") as [v|e] eqn:Hv; cbn.
        -- destruct (truthy v) eqn:Ht; cbn.
           ++ eapply shape_live; eassumption.
           ++ apply shape_empty.
        -- destruct (matches network_errors e) eqn:Hm; cbn;
             [now apply shape_failed | now apply shape_escaped].
      * destruct (matches network_errors e) eqn:Hm; cbn;
          [now apply shape_failed | now apply shape_escaped].
    + destruct (matches network_errors e) eqn:Hm; cbn;
        [now apply shape_failed | now apply shape_escaped].
  - destruct (matches network_errors e) eqn:Hm; cbn;
      [now apply shape_failed | now apply shape_escaped].
Qed.

Lemma search_request_failed e :
  requests_get W (lookup_url query) = Raise e ->
  matches network_errors e = true ->
  search W self query
  = (Ok (JStr unable_to_fetch),
     [EvHttpGet (lookup_url query);
      EvLog ERROR ("Web search error: " ++ exn_str e)]).
Proof.
  intros Hget Hm. unfold search, _run. run_monad.
  rewrite Hget; cbn. now rewrite Hm.
Qed.

Lemma search_http_error resp :
  requests_get W (lookup_url query) = Ok resp ->
  (400 <= status_code resp < 600)%Z ->
  search W self query
  = (Ok (JStr unable_to_fetch),
     [EvHttpGet (lookup_url query);
      EvLog ERROR "Web search error: HTTP error"]).
Proof.
  intros Hget Hst. unfold search, _run. run_monad.
  rewrite Hget; cbn. unfold raise_for_status.
  replace ((400 <=? status_code resp)%Z && (status_code resp <? 600)%Z)
    with true by (symmetry; apply andb_true_iff; split;
                  [apply Z.leb_le | apply Z.ltb_lt]; lia).
  cbn. reflexivity.
Qed.

Lemma search_undecodable resp e :
  requests_get W (lookup_url query) = Ok resp ->
  ~ (400 <= status_code resp < 600)%Z ->
  json_body resp = Raise e ->
  matches network_errors e = true ->
  search W self query
  = (Ok (JStr unable_to_fetch),
     [EvHttpGet (lookup_url query);
      EvLog ERROR ("Web search error: " ++ exn_str e)]).
Proof.
  intros Hget Hst Hjs Hm. unfold search, _run. run_monad.
  rewrite Hget; cbn. unfold raise_for_status.
  replace ((400 <=? status_code resp)%Z && (status_code resp <? 600)%Z)
    with false
    by (symmetry; apply andb_false_iff;
        destruct (Z.leb_spec 400 (status_code resp));
        destruct (Z.ltb_spec (status_code resp) 600); auto; lia).
  cbn. rewrite Hjs; cbn. now rewrite Hm.
Qed.

Lemma search_object resp members :
  requests_get W (lookup_url query) = Ok resp ->
  ~ (400 <= status_code resp < 600)%Z ->
  json_body resp = Ok (JObj members) ->
  search W self query
  = (Ok (match member "AbstractText" members with
         | Some v => if truthy v then v else JStr unable_to_fetch
         | None => JStr unable_to_fetch
         end),
     [EvHttpGet (lookup_url query)]).
Proof.
  intros Hget Hst Hjs. unfold search, _run, py_or. run_monad.
  rewrite Hget; cbn. unfold raise_for_status.
  replace ((400 <=? status_code resp)%Z && (status_code resp <? 600)%Z)
    with false
    by (symmetry; apply andb_false_iff;
        destruct (Z.leb_spec 400 (status_code resp));
        destruct (Z.ltb_spec (status_code resp) 600); auto; lia).
  cbn. rewrite Hjs; cbn.
  destruct (member "AbstractText" members) as [v|]; cbn; [|reflexivity].
  destruct (truthy v); reflexivity.
Qed.

End WebSearchFacts.

(** C5, as stated, fails: a JSON array from the lookup service makes
    [search] raise [AttributeError]. *)
Lemma search_raises_on_json_array :
  WebSearchTool.search array_world WebSearchTool.new "AI in marketing"
  = (Raise (mkExn AttributeError "'list' object has no attribute 'get'"),
     [EvHttpGet "https://api.duckduckgo.com/?q=AI in marketing&format=json"]).
Proof. reflexivity. Qed.

(** C5 (amended): for every query, [search] returns the fixed sentence
    "Unable to fetch latest information. Using cached data instead." when
    the request raises an error the handler names (a request error such as
    a timeout), when the answer has an HTTP error status, when the body
    cannot be decoded as JSON, and when the body is a JSON object whose
    [AbstractText] is missing, null or empty; it returns the live abstract
    when the body is a JSON object with a non-empty [AbstractText] string.
    In none of these cases does it raise. *)
Theorem search_degrades_gracefully (W : World) (self : WebSearchTool.t)
    (query : string) :
  let url := WebSearchTool.lookup_url query in
  let unable := Ok (JStr "Unable to fetch latest information. Using cached data instead.") in
  let out := result_of (WebSearchTool.search W self query) in
  (forall e, requests_get W url = Raise e ->
             isinstance e RequestException = true -> out = unable)
  /\ (forall resp, requests_get W url = Ok resp ->
                   (400 <= status_code resp < 600)%Z -> out = unable)
  /\ (forall resp e, requests_get W url = Ok resp ->
                     ~ (400 <= status_code resp < 600)%Z ->
                     json_body resp = Raise e ->
                     isinstance e JSONDecodeError = true -> out = unable)
  /\ (forall resp members, requests_get W url = Ok resp ->
                     ~ (400 <= status_code resp < 600)%Z ->
                     json_body resp = Ok (JObj members) ->
                     (member "AbstractText" members = None
                      \/ member "AbstractText" members = Some JNull
                      \/ member "AbstractText" members = Some (JStr "")) ->
                     out = unable)
  /\ (forall resp members s, requests_get W url = Ok resp ->
                     ~ (400 <= status_code resp < 600)%Z ->
                     json_body resp = Ok (JObj members) ->
                     member "AbstractText" members = Some (JStr s) ->
                     s <> "" ->
                     out = Ok (JStr s)).
Proof.
  cbv zeta. unfold result_of. split; [|split; [|split; [|split]]].
  - intros e Hget He. erewrite search_request_failed by
      (try eassumption; unfold matches, WebSearchTool.network_errors; cbn;
       now rewrite He).
    reflexivity.
  - intros resp Hget Hst. now erewrite search_http_error by eassumption.
  - intros resp e Hget Hst Hjs He. erewrite search_undecodable; try eassumption.
    + reflexivity.
    + unfold matches, WebSearchTool.network_errors; cbn.
      rewrite He. now rewrite orb_true_r.
  - intros resp members Hget Hst Hjs Hm.
    erewrite search_object by eassumption. cbn.
    destruct Hm as [-> | [-> | ->]]; reflexivity.
  - intros resp members s Hget Hst Hjs Hm Hs.
    erewrite search_object by eassumption. cbn. rewrite Hm. cbn.
    destruct (String.eqb_spec s ""); [contradiction | reflexivity].
Qed.

Lemma search_degrades_gracefully_witness :
  result_of (WebSearchTool.search timeout_world WebSearchTool.new "AI")
    = Ok (JStr WebSearchTool.unable_to_fetch)
  /\ result_of (WebSearchTool.search unavailable_world WebSearchTool.new "AI")
    = Ok (JStr WebSearchTool.unable_to_fetch)
  /\ result_of (WebSearchTool.search html_world WebSearchTool.new "AI")
    = Ok (JStr WebSearchTool.unable_to_fetch)
  /\ result_of (WebSearchTool.search no_abstract_world WebSearchTool.new "AI")
    = Ok (JStr WebSearchTool.unable_to_fetch)
  /\ result_of (WebSearchTool.search calm_world WebSearchTool.new "AI")
    = Ok (JStr "AI adoption in marketing keeps growing.").
Proof.
  split; [|split; [|split; [|split]]].
  - destruct (search_degrades_gracefully timeout_world WebSearchTool.new "AI")
      as (H & _).
    apply (H (mkExn Timeout "Read timed out. (read timeout=10)")); reflexivity.
  - destruct (search_degrades_gracefully unavailable_world WebSearchTool.new "AI")
      as (_ & H & _).
    eapply H; [reflexivity | cbn; lia].
  - destruct (search_degrades_gracefully html_world WebSearchTool.new "AI")
      as (_ & _ & H & _).
    eapply H; [reflexivity | cbn; lia | reflexivity | reflexivity].
  - destruct (search_degrades_gracefully no_abstract_world WebSearchTool.new "AI")
      as (_ & _ & _ & H & _).
    eapply H; [reflexivity | cbn; lia | reflexivity | right; right; reflexivity].
  - destruct (search_degrades_gracefully calm_world WebSearchTool.new "AI")
      as (_ & _ & _ & _ & H).
    eapply H; [reflexivity | cbn; lia | reflexivity | reflexivity | discriminate].
Defined.

(** C10, as stated, fails in its last part: [search] returns the sentence
    "Search functionality temporarily unavailable." when the lookup
    service's abstract is that very text. *)
Lemma search_can_return_second_sentence :
  result_of (WebSearchTool.search echo_world WebSearchTool.new "status")
  = Ok (JStr "Search functionality temporarily unavailable.").
Proof. reflexivity. Qed.

(** C10 (amended): the second-tier branch of [_fallback_search] is
    unreachable: for every query [_fallback_search] returns "Unable to
    fetch latest information. Using cached data instead." and logs
    nothing, and every call to [search] ends with that sentence, with the
    lookup service's own non-empty abstract, or with an exception the
    handler does not name; the sentence "Search functionality temporarily
    unavailable." is returned only as such an abstract, and no "Fallback
    search error" line is ever logged. *)
Theorem second_tier_fallback_unreachable (W : World) (self : WebSearchTool.t)
    (query : string) :
  WebSearchTool._fallback_search self query
    = (Ok (JStr "Unable to fetch latest information. Using cached data instead."), [])
  /\ (let out := result_of (WebSearchTool.search W self query) in
      out = Ok (JStr "Unable to fetch latest information. Using cached data instead.")
      \/ (exists resp data v,
             requests_get W (WebSearchTool.lookup_url query) = Ok resp
             /\ json_body resp = Ok data
             /\ py_get data "AbstractText" = Ok v
             /\ truthy v = true
             /\ out = Ok v)
      \/ (exists e, out = Raise e
                    /\ matches WebSearchTool.network_errors e = false))
  /\ (forall text,
        ~ In (EvLog ERROR ("Fallback search error: " ++ text))
             (events_of (WebSearchTool.search W self query))).
Proof.
  split; [reflexivity|]. cbv zeta. unfold result_of, events_of.
  destruct (search_has_shape W self query) as [e Hm | | resp data v H1 H2 H3 H4 | e Hm];
    cbn;
    (split;
     [| intros text Hin;
        repeat (destruct Hin as [Hin | Hin];
                [ try discriminate Hin; injection Hin as Hin;
                  cbv [String.append] in Hin; discriminate Hin | ]);
        exact Hin ]).
  - now left.
  - now left.
  - right; left. exists resp, data, v. repeat split; assumption.
  - right; right. exists e. now split.
Qed.

(** ** [str.strip] *)

Lemma drop_space_split_bounded sp2 sp3 (n : nat) :
  forall s, List.length s <= n ->
    exists l, s = (l ++ drop_space sp2 sp3 s)%list /\ white sp2 sp3 l.
Proof.
  induction n as [|n IH]; intros s Hlen.
  - destruct s; [|cbn in Hlen; lia]. exists []. split; [reflexivity|constructor].
  - destruct s as [|a s1]; [exists []; split; [reflexivity|constructor]|].
    cbn [drop_space]. cbn in Hlen.
    destruct (is_space1 a) eqn:H1.
    { destruct (IH s1 ltac:(lia)) as (l & Heq & Hw).
      exists (a :: l). split; [cbn; congruence | now constructor]. }
    destruct s1 as [|b s2]; [exists []; split; [reflexivity|constructor]|].
    cbn in Hlen.
    destruct (sp2 a b) eqn:H2.
    { destruct (IH s2 ltac:(lia)) as (l & Heq & Hw).
      exists (a :: b :: l). split; [cbn; congruence | now constructor]. }
    destruct s2 as [|c s3]; [exists []; split; [reflexivity|constructor]|].
    cbn in Hlen.
    destruct (sp3 a b c) eqn:H3.
    { destruct (IH s3 ltac:(lia)) as (l & Heq & Hw).
      exists (a :: b :: c :: l). split; [cbn; congruence | now constructor]. }
    exists []. split; [reflexivity|constructor].
Qed.

Lemma drop_space_split sp2 sp3 (s : list ascii) :
  exists l, s = (l ++ drop_space sp2 sp3 s)%list /\ white sp2 sp3 l.
Proof. apply (drop_space_split_bounded sp2 sp3 (List.length s)); lia. Qed.

(** [strip] removes white space from the two ends and nothing else. *)
Lemma strip_only_trims (s : string) :
  exists l r,
    list_ascii_of_string s
      = (l ++ list_ascii_of_string (strip s) ++ r)%list
    /\ white_front l /\ white_back r.
Proof.
  unfold strip, rstrip_bytes, lstrip_bytes.
  rewrite list_ascii_of_string_of_list_ascii.
  destruct (drop_space_split is_space2 is_space3 (list_ascii_of_string s))
    as (l & Hl & Hwl).
  set (mid := drop_space is_space2 is_space3 (list_ascii_of_string s)) in *.
  destruct (drop_space_split (fun b a => is_space2 a b)
              (fun c b a => is_space3 a b c) (rev mid)) as (r' & Hr & Hwr).
  exists l, (rev r'). split; [|split].
  - rewrite Hl at 1. f_equal.
    rewrite <- rev_app_distr, <- Hr. now rewrite rev_involutive.
  - exact Hwl.
  - unfold white_back. now rewrite rev_involutive.
Qed.

Lemma is_space2_not_space1 a b : is_space2 a b = true -> is_space1 a = false.
Proof.
  unfold is_space2, is_space1. intros H.
  apply andb_true_iff in H. destruct H as [H _].
  apply N.eqb_eq in H. now rewrite H.
Qed.

Lemma is_space3_not_shorter a b c :
  is_space3 a b c = true -> is_space1 a = false /\ is_space2 a b = false.
Proof.
  unfold is_space3, is_space2, is_space1. cbv zeta. intros H.
  repeat (apply orb_true_iff in H; destruct H as [H | H]);
    repeat (apply andb_true_iff in H; destruct H as [H ?]);
    apply N.eqb_eq in H; rewrite H; split; reflexivity.
Qed.

(** A string of white space only strips to the empty string. *)
Lemma lstrip_white (l : list ascii) : white_front l -> lstrip_bytes l = [].
Proof.
  unfold white_front, lstrip_bytes. induction 1 as [| a l H1 _ IH | a b l H2 _ IH | a b c l H3 _ IH].
  - reflexivity.
  - cbn. now rewrite H1.
  - cbn. rewrite (is_space2_not_space1 _ _ H2). now rewrite H2.
  - cbn. destruct (is_space3_not_shorter _ _ _ H3) as [-> ->]. now rewrite H3.
Qed.

Lemma strip_white (s : string) :
  white_front (list_ascii_of_string s) -> strip s = "".
Proof.
  intros H. unfold strip. now rewrite (lstrip_white _ H).
Qed.

Lemma drop_space_begins_bounded sp2 sp3 (n : nat) :
  forall s, List.length s <= n ->
    begins_with_space sp2 sp3 (drop_space sp2 sp3 s) = false.
Proof.
  induction n as [|n IH]; intros s Hlen.
  - destruct s; [reflexivity | cbn in Hlen; lia].
  - destruct s as [|a s1]; [reflexivity|].
    cbn [drop_space]. cbn in Hlen.
    destruct (is_space1 a) eqn:H1; [apply IH; lia|].
    destruct s1 as [|b s2]; [cbn; now rewrite H1|].
    cbn in Hlen.
    destruct (sp2 a b) eqn:H2; [apply IH; lia|].
    destruct s2 as [|c s3]; [cbn; now rewrite H1, H2|].
    cbn in Hlen.
    destruct (sp3 a b c) eqn:H3; [apply IH; lia|].
    cbn. now rewrite H1, H2, H3.
Qed.

Lemma drop_space_begins sp2 sp3 (s : list ascii) :
  begins_with_space sp2 sp3 (drop_space sp2 sp3 s) = false.
Proof. apply (drop_space_begins_bounded sp2 sp3 (List.length s)); lia. Qed.

Lemma begins_with_space_app sp2 sp3 (l r : list ascii) :
  begins_with_space sp2 sp3 l = true ->
  begins_with_space sp2 sp3 (l ++ r)%list = true.
Proof.
  destruct l as [|a [|b [|c l]]]; cbn; try discriminate; intros H.
  - rewrite orb_false_r in H. now rewrite H.
  - destruct (is_space1 a); [reflexivity|]. cbn in *.
    rewrite orb_false_r in H. now rewrite H.
  - exact H.
Qed.

Lemma strip_is_trimmed (s : string) :
  starts_with_space (strip s) = false /\ ends_with_space (strip s) = false.
Proof.
  unfold starts_with_space, ends_with_space, strip, rstrip_bytes, lstrip_bytes.
  rewrite list_ascii_of_string_of_list_ascii.
  set (mid := drop_space is_space2 is_space3 (list_ascii_of_string s)).
  set (sp2' := fun b a => is_space2 a b).
  set (sp3' := fun c b a => is_space3 a b c).
  split.
  - destruct (begins_with_space is_space2 is_space3
                (rev (drop_space sp2' sp3' (rev mid)))) eqn:Hb; [|reflexivity].
    destruct (drop_space_split sp2' sp3' (rev mid)) as (r' & Hr & _).
    assert (Hmid : mid = (rev (drop_space sp2' sp3' (rev mid)) ++ rev r')%list).
    { rewrite <- rev_app_distr, <- Hr. now rewrite rev_involutive. }
    pose proof (begins_with_space_app is_space2 is_space3 _ (rev r') Hb) as H.
    rewrite <- Hmid in H. unfold mid in H.
    now rewrite drop_space_begins in H.
  - rewrite rev_involutive. apply drop_space_begins.
Qed.

Example strip_blank : strip "   " = "".
Proof. reflexivity. Qed.

Example strip_unicode_space :
  strip (String (ascii_of_N 194) (String (ascii_of_N 160) " ok
")) = "ok".
Proof. reflexivity. Qed.

(** ** The content composer *)

Arguments format : simpl never.
Arguments prompt_text : simpl never.
Arguments strip : simpl never.
Arguments join : simpl never.
Arguments py_str : simpl never.

Lemma format_prompt (topic tone audience latest_info context : string) :
  format (template PostGenerator._create_prompt_template)
    [ ("topic", topic); ("tone", tone); ("audience", audience);
      ("latest_info", latest_info); ("context", context) ]
  = Ok (prompt_text topic tone audience latest_info context).
Proof. vm_compute. reflexivity. Qed.

Lemma prompt_template_fields :
  List.length (literal_parts (template PostGenerator._create_prompt_template)) = 6.
Proof. vm_compute. reflexivity. Qed.

Section ComposerFacts.
Context (W : World) (self : PostGenerator.t).
Context (topic tone audience : json) (latest_info : string).

(** What [generate] does, by the outcome of its two service calls. *)
Lemma generate_cases (index : FAISS) :
  VectorDB.db (PostGenerator.vector_db self) = Some index ->
  PostGenerator.prompt self = PostGenerator._create_prompt_template ->
  PostGenerator.generate W self topic tone audience latest_info
  = match similarity_search W (index_texts index) topic 3 with
    | Raise e => (Raise e, [EvIndexQuery topic 3])
    | Ok docs =>
        let text := prompt_text (py_str W topic) (py_str W tone)
                      (py_str W audience) latest_info
                      (join " " (map page_content docs)) in
        match llm_call W text with
        | Ok out => (Ok (strip out), [EvIndexQuery topic 3; EvModelCall text])
        | Raise e => (Raise e, [EvIndexQuery topic 3; EvModelCall text])
        end
    end.
Proof.
  intros Hdb Hprompt. unfold PostGenerator.generate, LLMChain_run.
  rewrite Hdb, Hprompt. run_monad.
  destruct (similarity_search W (index_texts index) topic 3) as [docs|e]; cbn;
    [|reflexivity].
  rewrite format_prompt; cbn.
  destruct (llm_call W _) as [out|e]; reflexivity.
Qed.

(** A post that [generate] returns is a stripped answer of the model. *)
Lemma generate_returns_stripped (post : string) :
  result_of (PostGenerator.generate W self topic tone audience latest_info)
    = Ok post ->
  exists text out, llm_call W text = Ok out /\ post = strip out.
Proof.
  unfold PostGenerator.generate, LLMChain_run, result_of.
  destruct (VectorDB.db (PostGenerator.vector_db self)) as [index|];
    [|discriminate].
  run_monad.
  destruct (similarity_search W (index_texts index) topic 3) as [docs|e]; cbn;
    [|discriminate].
  destruct (format _ _) as [text|e]; cbn; [|discriminate].
  destruct (llm_call W text) as [out|e] eqn:Hllm; cbn; [|discriminate].
  intros H. injection H as <-. now exists text, out.
Qed.

(** The model is called at most once, whatever happens. *)
Lemma generate_calls_model_at_most_once :
  count is_model_call
    (events_of (PostGenerator.generate W self topic tone audience latest_info))
  <= 1.
Proof.
  unfold PostGenerator.generate, LLMChain_run, events_of.
  destruct (VectorDB.db (PostGenerator.vector_db self)) as [index|];
    [|cbn; lia].
  run_monad.
  destruct (similarity_search W (index_texts index) topic 3) as [docs|e]; cbn;
    [|lia].
  destruct (format _ _) as [text|e]; cbn; [|lia].
  destruct (llm_call W text) as [out|e]; cbn; lia.
Qed.

End ComposerFacts.

Lemma join_is_concat (sep : string) (parts : list string) :
  join sep parts = String.concat sep parts.
Proof.
  induction parts as [|p [|q rest] IH]; [reflexivity | reflexivity |].
  change (join sep (p :: q :: rest)) with (p ++ sep ++ join sep (q :: rest)).
  now rewrite IH.
Qed.

(** The filled prompt is the template with each field replaced by its
    value. *)
Lemma prompt_text_layout :
  exists s0 s1 s2 s3 s4 s5,
    template PostGenerator._create_prompt_template
      = s0 ++ "{topic}" ++ s1 ++ "{tone}" ++ s2 ++ "{audience}" ++ s3
           ++ "{latest_info}" ++ s4 ++ "{context}" ++ s5
    /\ forall topic tone audience latest_info context,
         prompt_text topic tone audience latest_info context
         = s0 ++ topic ++ s1 ++ tone ++ s2 ++ audience ++ s3
              ++ latest_info ++ s4 ++ context ++ s5.
Proof.
  set (parts := literal_parts (template PostGenerator._create_prompt_template)).
  exists (nth 0 parts ""), (nth 1 parts ""), (nth 2 parts ""),
         (nth 3 parts ""), (nth 4 parts ""), (nth 5 parts "").
  split; [vm_compute; reflexivity|].
  intros topic tone audience latest_info context.
  vm_compute. reflexivity.
Qed.

(** C8: for every topic, tone, audience and latest information,
    [PostGenerator.generate] asks the index for the 3 nearest documents to
    the topic, concatenates their texts in result order, a single space
    between two texts, into the context, calls the generation model
    exactly once, on the template with its five fields replaced by the
    five values, and returns the model's answer with the white space at
    its two ends removed and nothing else changed: the result neither
    begins nor ends with white space, and what was removed is white space
    only. *)
Theorem generate_composes (W : World) (self : PostGenerator.t)
    (topic tone audience latest_info : string)
    (index : FAISS) (docs : list Document) (out : string) :
  VectorDB.db (PostGenerator.vector_db self) = Some index ->
  PostGenerator.prompt self = PostGenerator._create_prompt_template ->
  similarity_search W (index_texts index) (JStr topic) 3 = Ok docs ->
  let context := String.concat " " (map page_content docs) in
  let text := prompt_text topic tone audience latest_info context in
  llm_call W text = Ok out ->
  PostGenerator.generate W self (JStr topic) (JStr tone) (JStr audience)
      latest_info
    = (Ok (strip out), [EvIndexQuery (JStr topic) 3; EvModelCall text])
  /\ format (template (PostGenerator.prompt self))
       [ ("topic", topic); ("tone", tone); ("audience", audience);
         ("latest_info", latest_info); ("context", context) ] = Ok text
  /\ (exists l r,
       list_ascii_of_string out
         = (l ++ list_ascii_of_string (strip out) ++ r)%list
       /\ white_front l /\ white_back r)
  /\ starts_with_space (strip out) = false
  /\ ends_with_space (strip out) = false
  /\ (forall d1 d2 d3, docs = [d1; d2; d3] ->
        context = page_content d1 ++ " " ++ page_content d2
                    ++ " " ++ page_content d3)
  /\ (exists s0 s1 s2 s3 s4 s5,
        template PostGenerator._create_prompt_template
          = s0 ++ "{topic}" ++ s1 ++ "{tone}" ++ s2 ++ "{audience}" ++ s3
               ++ "{latest_info}" ++ s4 ++ "{context}" ++ s5
        /\ text = s0 ++ topic ++ s1 ++ tone ++ s2 ++ audience ++ s3
                     ++ latest_info ++ s4 ++ context ++ s5).
Proof.
  intros Hdb Hprompt Hdocs context text Hllm.
  split; [|split; [|split; [|split; [|split; [|split]]]]].
  - rewrite (generate_cases W self (JStr topic) (JStr tone) (JStr audience)
               latest_info index Hdb Hprompt).
    rewrite Hdocs. cbv zeta. rewrite join_is_concat.
    change (py_str W (JStr topic)) with topic.
    change (py_str W (JStr tone)) with tone.
    change (py_str W (JStr audience)) with audience.
    fold context. fold text. now rewrite Hllm.
  - rewrite Hprompt. apply format_prompt.
  - apply strip_only_trims.
  - apply strip_is_trimmed.
  - apply strip_is_trimmed.
  - intros d1 d2 d3 ->. reflexivity.
  - destruct prompt_text_layout as (s0 & s1 & s2 & s3 & s4 & s5 & Ht & Hp).
    exists s0, s1, s2, s3, s4, s5. split; [exact Ht | apply Hp].
Qed.

Lemma generate_composes_witness :
  result_of
    (PostGenerator.generate careful_world
       (LinkedInPostGenerator.post_generator (built_generator careful_world))
       (JStr "AI in marketing") (JStr "professional") (JStr "marketers")
       "AI adoption keeps growing.")
  = Ok "AI is changing marketing. #AI".
Proof.
  refine (f_equal fst
            (proj1 (generate_composes careful_world
                      (LinkedInPostGenerator.post_generator
                         (built_generator careful_world))
                      "AI in marketing" "professional" "marketers"
                      "AI adoption keeps growing."
                      {| index_texts := VectorDB._get_default_texts |}
                      (map mkDocument (firstn 3 VectorDB._get_default_texts))
                      "  AI is changing marketing. #AI
"
                      eq_refl eq_refl eq_refl _))).
  vm_compute. reflexivity.
Defined.

Example careful_model_rejects_other_prompts :
  llm_call careful_world "Topic: AI in marketing"
  = Raise (mkExn ValueError "the prompt lacks the topic or the context").
Proof. reflexivity. Qed.

(** ** The agent *)

Lemma count_app (p : event -> bool) (a b : trace) :
  count p (a ++ b)%list = count p a + count p b.
Proof. unfold count. now rewrite filter_app, length_app. Qed.

Lemma count_cons (p : event -> bool) (e : event) (a : trace) :
  count p (e :: a) = (if p e then 1 else 0) + count p a.
Proof. unfold count. cbn. now destruct (p e). Qed.

Ltac destruct_loop :=
  match goal with
  | |- context [agent_loop ?w ?x ?q ?n ?i ?s] =>
      destruct (agent_loop w x q n i s) as [? ?]; reflexivity
  end.

Section AgentFacts.
Context (W : World) (llm : ChatModel) (mem : string).

Local Abbreviation ex := (snd (LinkedInPostGenerator._setup_agent W llm mem)).

(** One turn of the loop of the agent this program sets up. *)
Lemma agent_loop_turn (q : string) (n i : nat) (steps : list agent_step) :
  agent_loop W ex q (S n) i steps
  = match agent_model W q steps with
    | Raise e => (Raise e, [EvAgentStep i])
    | Ok (AgentFinish out) => (Ok out, [EvAgentStep i])
    | Ok (AgentAction tool input) =>
        if tool =? "Web Search" then
          match WebSearchTool.search W WebSearchTool.new input with
          | (Ok obs, evs) =>
              let '(r, evs') :=
                agent_loop W ex q n (S i) (steps ++ [mkStep tool input obs])%list in
              (r, (EvAgentStep i :: EvToolCall tool input :: evs ++ evs')%list)
          | (Raise e, evs) =>
              (Raise e, (EvAgentStep i :: EvToolCall tool input :: evs)%list)
          end
        else
          let '(r, evs') :=
            agent_loop W ex q n (S i)
              (steps ++ [mkStep tool input
                           (JStr (tool ++ " is not a valid tool, try one of ["
                                   ++ join ", " (map tool_name (tools ex)) ++ "]."))])%list in
          (r, (EvAgentStep i :: evs')%list)
    | Ok (Unparsable text) =>
        let '(r, evs') :=
          agent_loop W ex q n (S i)
            (steps ++ [mkStep "_Exception" text (JStr invalid_response)])%list in
        (r, (EvAgentStep i :: evs')%list)
    end.
Proof.
  cbn [agent_loop]. run_monad.
  destruct (agent_model W q steps) as [[out | tool input | text] | e]; cbn;
    try reflexivity.
  - destruct (tool =? "Web Search"); cbn.
    + destruct (WebSearchTool.search W WebSearchTool.new input) as [[obs|e] evs];
        cbn; [|reflexivity].
      destruct_loop.
    + destruct_loop.
  - destruct_loop.
Qed.

End AgentFacts.

Lemma search_events (W : World) (self : WebSearchTool.t) (query : string) :
  let evs := events_of (WebSearchTool.search W self query) in
  count is_agent_step evs = 0
  /\ count is_tool_call evs = 0
  /\ count is_http_get evs = 1
  /\ Forall (fun e => agent_event e = true) evs.
Proof.
  cbv zeta. unfold events_of.
  destruct (search_has_shape W self query); cbn;
    repeat split; repeat constructor.
Qed.

Section AgentBounds.
Context (W : World) (llm : ChatModel) (mem : string) (q : string).

Local Abbreviation ex := (snd (LinkedInPostGenerator._setup_agent W llm mem)).

Ltac loop_cases IH n i steps :=
  rewrite (agent_loop_turn W llm mem q n i steps);
  destruct (agent_model W q steps) as [[out | tool input | text] | e];
  [ | destruct (tool =? "Web Search");
      [ pose proof (search_events W WebSearchTool.new input) as Hs;
        cbv zeta in Hs; unfold events_of in Hs;
        destruct (WebSearchTool.search W WebSearchTool.new input)
          as [[obs|e] evs];
        [ match goal with
          | |- context [agent_loop ?w ?x ?qq ?nn ?ii ?ss] =>
              pose proof (IH ii ss) as Hr;
              destruct (agent_loop w x qq nn ii ss) as [r evs']
          end | ]
      | match goal with
        | |- context [agent_loop ?w ?x ?qq ?nn ?ii ?ss] =>
            pose proof (IH ii ss) as Hr;
            destruct (agent_loop w x qq nn ii ss) as [r evs']
        end ]
    | match goal with
      | |- context [agent_loop ?w ?x ?qq ?nn ?ii ?ss] =>
          pose proof (IH ii ss) as Hr;
          destruct (agent_loop w x qq nn ii ss) as [r evs']
      end
    | ].

(** The loop asks the model at most [n] times when [n] turns remain; it
    runs a tool at most once per turn, and each tool run is one lookup. *)
Lemma agent_loop_bounded (n : nat) :
  forall (i : nat) (steps : list agent_step),
    let evs := events_of (agent_loop W ex q n i steps) in
    count is_agent_step evs <= n
    /\ count is_tool_call evs <= count is_agent_step evs
    /\ count is_http_get evs = count is_tool_call evs
    /\ Forall (fun e => agent_event e = true) evs.
Proof.
  induction n as [|n IH]; intros i steps; cbv zeta; unfold events_of.
  - cbn. repeat split; try lia. constructor.
  - unfold events_of in IH. cbv zeta in IH.
    loop_cases IH n i steps; cbn [snd] in *;
      repeat rewrite ?count_cons, ?count_app; cbn [is_agent_step is_tool_call is_http_get];
      try destruct Hs as (Hs1 & Hs2 & Hs3 & Hs4);
      try destruct Hr as (Hr1 & Hr2 & Hr3 & Hr4);
      (split; [|split; [|split]]); try (cbn; lia);
      repeat (apply Forall_cons; [reflexivity|]);
      try apply Forall_app; try split; try assumption; try constructor.
Qed.

(** A run that returns gives the model's final answer, or has used up
    all its turns and gives the fixed stopping message. *)
Lemma agent_loop_result (n : nat) :
  forall (i : nat) (steps : list agent_step) (out : string),
    result_of (agent_loop W ex q n i steps) = Ok out ->
    (exists steps', agent_model W q steps' = Ok (AgentFinish out))
    \/ (out = stopped_response
        /\ count is_agent_step (events_of (agent_loop W ex q n i steps)) = n).
Proof.
  induction n as [|n IH]; intros i steps out; unfold result_of, events_of.
  - cbn. intros H. injection H as <-. right. now split.
  - unfold result_of, events_of in IH.
    rewrite (agent_loop_turn W llm mem q n i steps).
    destruct (agent_model W q steps) as [[o | tool input | text] | e] eqn:Hm.
    + cbn. intros H. injection H as <-. left. now exists steps.
    + destruct (tool =? "Web Search").
      * pose proof (search_events W WebSearchTool.new input) as Hs.
        cbv zeta in Hs; unfold events_of in Hs.
        destruct (WebSearchTool.search W WebSearchTool.new input)
          as [[obs|e] evs]; [|discriminate].
        match goal with
        | |- context [agent_loop ?w ?x ?qq ?nn ?ii ?ss] =>
            pose proof (IH ii ss out) as Hr;
            destruct (agent_loop w x qq nn ii ss) as [r evs']
        end.
        cbn [fst snd] in *. intros H. destruct (Hr H) as [Hl | [-> Hc]];
          [now left | right]. split; [reflexivity|].
        rewrite !count_cons, count_app. cbn [is_agent_step].
        destruct Hs as (-> & _). lia.
      * match goal with
        | |- context [agent_loop ?w ?x ?qq ?nn ?ii ?ss] =>
            pose proof (IH ii ss out) as Hr;
            destruct (agent_loop w x qq nn ii ss) as [r evs']
        end.
        cbn [fst snd] in *. intros H. destruct (Hr H) as [Hl | [-> Hc]];
          [now left | right]. split; [reflexivity|].
        rewrite !count_cons. cbn [is_agent_step]. lia.
    + match goal with
      | |- context [agent_loop ?w ?x ?qq ?nn ?ii ?ss] =>
          pose proof (IH ii ss out) as Hr;
          destruct (agent_loop w x qq nn ii ss) as [r evs']
      end.
      cbn [fst snd] in *. intros H. destruct (Hr H) as [Hl | [-> Hc]];
        [now left | right]. split; [reflexivity|].
      rewrite !count_cons. cbn [is_agent_step]. lia.
    + discriminate.
Qed.

(** An exception that leaves the loop was raised by the model call, or
    left the search tool because its handler does not name it; an answer
    that cannot be parsed and a failed lookup do not end the run. *)
Lemma agent_loop_raises (n : nat) :
  forall (i : nat) (steps : list agent_step) (e : exn),
    result_of (agent_loop W ex q n i steps) = Raise e ->
    (exists steps', agent_model W q steps' = Raise e)
    \/ (exists input,
          result_of (WebSearchTool.search W WebSearchTool.new input) = Raise e
          /\ matches WebSearchTool.network_errors e = false).
Proof.
  induction n as [|n IH]; intros i steps e; unfold result_of.
  - discriminate.
  - unfold result_of in IH.
    rewrite (agent_loop_turn W llm mem q n i steps).
    destruct (agent_model W q steps) as [[o | tool input | text] | e'] eqn:Hm.
    + discriminate.
    + destruct (tool =? "Web Search").
      * pose proof (search_has_shape W WebSearchTool.new input) as Hs.
        destruct (WebSearchTool.search W WebSearchTool.new input)
          as [[obs|e'] evs] eqn:Hsearch.
        -- match goal with
           | |- context [agent_loop ?w ?x ?qq ?nn ?ii ?ss] =>
               pose proof (IH ii ss e) as Hr;
               destruct (agent_loop w x qq nn ii ss) as [r evs']
           end.
           exact Hr.
        -- cbn. intros H. injection H as ->. right. exists input.
           rewrite Hsearch. split; [reflexivity|].
           inversion Hs; subst; assumption.
      * match goal with
        | |- context [agent_loop ?w ?x ?qq ?nn ?ii ?ss] =>
            pose proof (IH ii ss e) as Hr;
            destruct (agent_loop w x qq nn ii ss) as [r evs']
        end.
        exact Hr.
    + match goal with
      | |- context [agent_loop ?w ?x ?qq ?nn ?ii ?ss] =>
          pose proof (IH ii ss e) as Hr;
          destruct (agent_loop w x qq nn ii ss) as [r evs']
      end.
      exact Hr.
    + cbn. intros H. injection H as ->. left. now exists steps.
Qed.

(** A run with a turn left asks the model at least once. *)
Lemma agent_loop_starts (n : nat) (i : nat) (steps : list agent_step) :
  1 <= count is_agent_step (events_of (agent_loop W ex q (S n) i steps)).
Proof.
  unfold events_of. rewrite (agent_loop_turn W llm mem q n i steps).
  destruct (agent_model W q steps) as [[out | tool input | text] | e].
  - cbn. lia.
  - destruct (tool =? "Web Search").
    + destruct (WebSearchTool.search W WebSearchTool.new input) as [[obs|e] evs].
      * match goal with
        | |- context [agent_loop ?w ?x ?qq ?nn ?ii ?ss] =>
            destruct (agent_loop w x qq nn ii ss) as [r evs']
        end.
        cbn [snd]. rewrite count_cons. cbn. lia.
      * cbn [snd]. rewrite count_cons. cbn. lia.
    + match goal with
      | |- context [agent_loop ?w ?x ?qq ?nn ?ii ?ss] =>
          destruct (agent_loop w x qq nn ii ss) as [r evs']
      end.
      cbn [snd]. rewrite count_cons. cbn. lia.
  - match goal with
    | |- context [agent_loop ?w ?x ?qq ?nn ?ii ?ss] =>
        destruct (agent_loop w x qq nn ii ss) as [r evs']
    end.
    cbn [snd]. rewrite count_cons. cbn. lia.
  - cbn. lia.
Qed.

End AgentBounds.

(** C9, as stated, fails in its last part: a run can end a third way.
    When the agent's model call raises, the run ends with that exception
    after one iteration, with no final answer and below the cap. *)
Lemma agent_run_ends_by_exception :
  agent_run provider_down_world
    (snd (LinkedInPostGenerator._setup_agent provider_down_world
            {| model := "gemini-1.5-flash-002"; api_key := Some "key" |}
            "chat_history"))
    (agent_question "AI in marketing")
  = (Raise (mkExn ProviderError "429 Resource has been exhausted"),
     [EvAgentStep 0]).
Proof. reflexivity. Qed.

(** C9 (amended): the agent this program sets up is capped at 3
    iterations: for every topic a run asks the model at least once and at
    most 3 times and runs a tool at most once per iteration (so at most 3
    times, each run being one lookup request).  It ends in one of three
    ways: with a final answer that the model gave, with the stopping
    message after exactly 3 iterations, or with an exception that the
    model call raised or that left the search tool because the tool's
    handler does not name it. *)
Theorem agent_run_bounded (W : World) (llm : ChatModel) (mem : string)
    (topic : string) :
  let ex := snd (LinkedInPostGenerator._setup_agent W llm mem) in
  let run := agent_run W ex (agent_question topic) in
  max_iterations ex = 3
  /\ 1 <= count is_agent_step (events_of run) <= 3
  /\ count is_tool_call (events_of run) <= count is_agent_step (events_of run)
  /\ count is_http_get (events_of run) = count is_tool_call (events_of run)
  /\ ((exists out steps,
         result_of run = Ok out
         /\ agent_model W (agent_question topic) steps = Ok (AgentFinish out))
      \/ (result_of run = Ok stopped_response
          /\ count is_agent_step (events_of run) = 3)
      \/ (exists e,
            result_of run = Raise e
            /\ ((exists steps,
                    agent_model W (agent_question topic) steps = Raise e)
                \/ (exists input,
                      result_of (WebSearchTool.search W WebSearchTool.new input)
                        = Raise e
                      /\ matches WebSearchTool.network_errors e = false)))).
Proof.
  cbv zeta. unfold agent_run.
  change (max_iterations (snd (LinkedInPostGenerator._setup_agent W llm mem)))
    with 3.
  destruct (agent_loop_bounded W llm mem (agent_question topic) 3 0 [])
    as (H1 & H2 & H3 & _).
  pose proof (agent_loop_starts W llm mem (agent_question topic) 2 0 []) as H0.
  pose proof (agent_loop_result W llm mem (agent_question topic) 3 0 []) as Hok.
  pose proof (agent_loop_raises W llm mem (agent_question topic) 3 0 []) as Hex.
  split; [reflexivity|]. split; [split; [exact H0 | exact H1]|].
  split; [exact H2|]. split; [exact H3|].
  destruct (result_of (agent_loop W _ (agent_question topic) 3 0 []))
    as [out|e] eqn:Hr.
  - destruct (Hok out eq_refl) as [[steps Hs] | [-> Hc]].
    + left. now exists out, steps.
    + right. left. now split.
  - right. right. exists e. split; [reflexivity|]. now apply Hex.
Qed.

(** The cap is reached when the model never gives a final answer. *)
Example restless_agent_stops :
  let run := agent_run restless_world
               (LinkedInPostGenerator.agent (built_generator restless_world))
               (agent_question "AI") in
  result_of run = Ok "Agent stopped due to iteration limit or time limit."
  /\ count is_agent_step (events_of run) = 3
  /\ count is_tool_call (events_of run) = 3.
Proof. vm_compute. repeat split. Qed.

(** ** The generator *)

Lemma every_exception_is_exception (e : exn) : matches [Exception] e = true.
Proof. destruct e as [[] msg]; reflexivity. Qed.

Lemma init_cases (W : World) :
  LinkedInPostGenerator.__init__ W
  = match faiss_from_texts W VectorDB._get_default_texts with
    | Ok _ =>
        (Ok (built_generator W),
         [EvIndexBuild VectorDB._get_default_texts;
          EvLog INFO "Vector database initialized successfully"])
    | Raise e =>
        (Raise e,
         [EvIndexBuild VectorDB._get_default_texts;
          EvLog ERROR ("Vector database initialization error: " ++ exn_str e)])
    end.
Proof.
  unfold LinkedInPostGenerator.__init__, VectorDB.initialize. run_monad.
  destruct (faiss_from_texts W VectorDB._get_default_texts) as [[]|e]; cbn.
  - reflexivity.
  - now rewrite every_exception_is_exception.
Qed.

Section GeneratorFacts.
Context (W : World) (self : LinkedInPostGenerator.t).
Context (topic tone audience : json).
Import LinkedInPostGenerator.

Lemma get_latest_info_cases :
  _get_latest_info W self topic
  = match agent_run W (agent self) (agent_question (py_str W topic)) with
    | (Ok info, evs) => (Ok info, evs)
    | (Raise e, evs) =>
        if matches caught e
        then (Ok (fallback_info (py_str W topic)),
              (evs ++ [EvLog WARNING ("Agent execution error: " ++ exn_str e)])%list)
        else (Raise e, evs)
    end.
Proof.
  unfold _get_latest_info. fold (agent_question (py_str W topic)).
  unfold try_except, bind, emit, lift, logging, emit, ret, raise.
  destruct (agent_run W (agent self) (agent_question (py_str W topic)))
    as [[info|e] evs];
    [reflexivity|].
  destruct (matches caught e); reflexivity.
Qed.

(** What escapes [_get_latest_info] is never a value, type or key error. *)
Lemma get_latest_info_raises_uncaught (e : exn) :
  result_of (_get_latest_info W self topic) = Raise e ->
  matches caught e = false.
Proof.
  rewrite get_latest_info_cases. unfold result_of.
  destruct (agent_run W (agent self) (agent_question (py_str W topic)))
    as [[info|e'] evs]; [discriminate|].
  destruct (matches caught e') eqn:Hm; [discriminate|].
  cbn. intros H. now injection H as <-.
Qed.

Lemma generate_post_cases :
  generate_post W self topic tone audience
  = match _get_latest_info W self topic with
    | (Raise e, evs) => (Raise e, evs)
    | (Ok info, evs) =>
        match PostGenerator.generate W (post_generator self)
                topic tone audience info with
        | (Ok post, evs') => (Ok post, (evs ++ evs')%list)
        | (Raise e, evs') =>
            if matches caught e
            then (Raise e,
                  (evs ++ evs'
                     ++ [EvLog ERROR ("Post generation error: " ++ exn_str e)])%list)
            else (Raise e, (evs ++ evs')%list)
        end
    end.
Proof.
  unfold generate_post. run_monad.
  pose proof get_latest_info_raises_uncaught as Hu. unfold result_of in Hu.
  destruct (_get_latest_info W self topic) as [[info|e] evs].
  - destruct (PostGenerator.generate W (post_generator self) topic tone audience info)
      as [[post|e] evs']; [reflexivity|].
    destruct (matches caught e); [|reflexivity].
    now rewrite <- app_assoc.
  - now rewrite (Hu e eq_refl).
Qed.

End GeneratorFacts.

(** C1, as stated, fails: when the agent's model fails with an error of
    the provider's own class, [_get_latest_info] raises it to its caller. *)
Lemma get_latest_info_raises_provider_error :
  LinkedInPostGenerator._get_latest_info provider_down_world
    (built_generator provider_down_world) (JStr "AI in marketing")
  = (Raise (mkExn ProviderError "429 Resource has been exhausted"),
     [EvAgentStep 0]).
Proof. reflexivity. Qed.

(** C1 (amended): for every topic, [_get_latest_info] returns the agent's
    answer when the agent run returns one; when the agent run raises a
    value, type or key error it logs one warning and returns the fixed
    fallback text about the topic, which starts with "Based on industry
    trends"; an error of any other class is not caught and reaches the
    caller unchanged.  So what it raises is never a value, type or key
    error; on the generator the program builds it is an error raised by
    the agent's model call, or one that left the search tool because the
    tool's handler does not name it. *)
Theorem get_latest_info_absorbs (W : World) (self : LinkedInPostGenerator.t)
    (topic : string) :
  let run := agent_run W (LinkedInPostGenerator.agent self) (agent_question topic) in
  let info := LinkedInPostGenerator._get_latest_info W self (JStr topic) in
  let fallback :=
    "Based on industry trends and analysis, here are key insights about "
      ++ topic ++ "..." in
  (forall answer evs, run = (Ok answer, evs) -> info = (Ok answer, evs))
  /\ (forall e evs, run = (Raise e, evs) ->
        matches [ValueError; TypeError; KeyError] e = true ->
        info = (Ok fallback,
                (evs ++ [EvLog WARNING ("Agent execution error: " ++ exn_str e)])%list))
  /\ (forall e evs, run = (Raise e, evs) ->
        matches [ValueError; TypeError; KeyError] e = false ->
        info = (Raise e, evs))
  /\ startswith fallback "Based on industry trends" = true
  /\ (forall e, result_of info = Raise e ->
        matches [ValueError; TypeError; KeyError] e = false)
  /\ (forall e,
        result_of (LinkedInPostGenerator._get_latest_info W (built_generator W)
                     (JStr topic))
          = Raise e ->
        (exists steps, agent_model W (agent_question topic) steps = Raise e)
        \/ (exists input,
              result_of (WebSearchTool.search W WebSearchTool.new input) = Raise e
              /\ matches WebSearchTool.network_errors e = false)).
Proof.
  cbv zeta. rewrite get_latest_info_cases.
  change (py_str W (JStr topic)) with topic.
  split; [|split; [|split; [|split; [|split]]]].
  - intros answer evs ->. reflexivity.
  - intros e evs -> Hm.
    change (matches LinkedInPostGenerator.caught e) with
      (matches [ValueError; TypeError; KeyError] e). now rewrite Hm.
  - intros e evs -> Hm.
    change (matches LinkedInPostGenerator.caught e) with
      (matches [ValueError; TypeError; KeyError] e). now rewrite Hm.
  - vm_compute. reflexivity.
  - change topic with (py_str W (JStr topic)) at 1 2.
    rewrite <- get_latest_info_cases.
    apply get_latest_info_raises_uncaught.
  - intros e. rewrite get_latest_info_cases.
    change (py_str W (JStr topic)) with topic. unfold agent_run, result_of.
    pose proof (agent_loop_raises W
                  {| model := "gemini-1.5-flash-002"; api_key := google_api_key W |}
                  "chat_history" (agent_question topic) 3 0 []) as Hr.
    unfold result_of in Hr.
    change (LinkedInPostGenerator.agent (built_generator W)) with
      (snd (LinkedInPostGenerator._setup_agent W
              {| model := "gemini-1.5-flash-002"; api_key := google_api_key W |}
              "chat_history")).
    change (max_iterations
              (snd (LinkedInPostGenerator._setup_agent W
                      {| model := "gemini-1.5-flash-002"; api_key := google_api_key W |}
                      "chat_history"))) with 3.
    destruct (agent_loop W _ (agent_question topic) 3 0 []) as [[info|e'] evs];
      [discriminate|].
    destruct (matches LinkedInPostGenerator.caught e'); [discriminate|].
    cbn. intros H. injection H as <-. now apply Hr.
Qed.

Lemma get_latest_info_absorbs_witness :
  LinkedInPostGenerator._get_latest_info agent_value_error_world
    (built_generator agent_value_error_world) (JStr "AI in marketing")
  = (Ok "Based on industry trends and analysis, here are key insights about AI in marketing...",
     [EvAgentStep 0; EvLog WARNING "Agent execution error: unexpected model output"]).
Proof.
  destruct (get_latest_info_absorbs agent_value_error_world
              (built_generator agent_value_error_world) "AI in marketing")
    as (_ & H & _).
  exact (H (mkExn ValueError "unexpected model output") [EvAgentStep 0]
           eq_refl eq_refl).
Defined.

(** A lookup that times out is absorbed inside the tool: the agent goes on
    and its answer, not the fallback text, is what comes back. *)
Example get_latest_info_after_timeout :
  LinkedInPostGenerator._get_latest_info timeout_world
    (built_generator timeout_world) (JStr "AI in marketing")
  = (Ok "AI adoption keeps growing.",
     [EvAgentStep 0; EvToolCall "Web Search" "AI in marketing";
      EvHttpGet "https://api.duckduckgo.com/?q=AI in marketing&format=json";
      EvLog ERROR "Web search error: Read timed out. (read timeout=10)";
      EvAgentStep 1]).
Proof. reflexivity. Qed.

(** C2, as stated, fails: when the model answers with white space only,
    [generate_post] returns the empty string. *)
Lemma generate_post_returns_empty :
  result_of
    (LinkedInPostGenerator.generate_post blank_world (built_generator blank_world)
       (JStr "AI in marketing") (JStr "professional") (JStr "marketers"))
  = Ok "".
Proof. vm_compute. reflexivity. Qed.

Example generate_post_calm :
  result_of
    (LinkedInPostGenerator.generate_post calm_world (built_generator calm_world)
       (JStr "AI in marketing") (JStr "professional") (JStr "marketers"))
  = Ok "AI is changing marketing. #AI".
Proof. vm_compute. reflexivity. Qed.

(** C2 (amended): for every topic, tone and audience, [generate_post]
    either returns the generation model's answer with the white space at
    its two ends removed, or raises; the returned string is not checked,
    and it is empty when the model's answer is empty or white space only.
    On the generator the program builds, when the latest information is
    obtained and the index query and the model call succeed, the result
    is that stripped answer. *)
Theorem generate_post_returns_stripped (W : World)
    (self : LinkedInPostGenerator.t) (topic tone audience : string) :
  let r := result_of (LinkedInPostGenerator.generate_post W self
                        (JStr topic) (JStr tone) (JStr audience)) in
  ((exists text out,
       llm_call W text = Ok out
       /\ r = Ok (strip out)
       /\ (white_front (list_ascii_of_string out) -> strip out = "")
       /\ exists l t,
            list_ascii_of_string out
              = (l ++ list_ascii_of_string (strip out) ++ t)%list
            /\ white_front l /\ white_back t)
   \/ (exists e, r = Raise e))
  /\ (forall info evs docs out,
        LinkedInPostGenerator._get_latest_info W (built_generator W) (JStr topic)
          = (Ok info, evs) ->
        similarity_search W VectorDB._get_default_texts (JStr topic) 3 = Ok docs ->
        llm_call W (prompt_text topic tone audience info
                      (join " " (map page_content docs))) = Ok out ->
        result_of (LinkedInPostGenerator.generate_post W (built_generator W)
                     (JStr topic) (JStr tone) (JStr audience))
          = Ok (strip out)).
Proof.
  cbv zeta. split.
  2:{ intros info evs docs out Hinfo Hdocs Hllm.
      rewrite generate_post_cases, Hinfo.
      rewrite (generate_cases W
                 (LinkedInPostGenerator.post_generator (built_generator W))
                 (JStr topic) (JStr tone) (JStr audience) info
                 {| index_texts := VectorDB._get_default_texts |}
                 eq_refl eq_refl).
      cbn [index_texts]. rewrite Hdocs. cbv zeta.
      change (py_str W (JStr topic)) with topic.
      change (py_str W (JStr tone)) with tone.
      change (py_str W (JStr audience)) with audience.
      now rewrite Hllm. }
  rewrite generate_post_cases. unfold result_of.
  destruct (LinkedInPostGenerator._get_latest_info W self (JStr topic))
    as [[info|e] evs];
    [|right; now exists e].
  pose proof (generate_returns_stripped W
                (LinkedInPostGenerator.post_generator self)
                (JStr topic) (JStr tone) (JStr audience) info) as Hg.
  unfold result_of in Hg.
  destruct (PostGenerator.generate W _ (JStr topic) (JStr tone) (JStr audience) info)
    as [[post|e] evs'].
  - left. destruct (Hg post eq_refl) as (text & out & Hllm & ->).
    exists text, out. split; [exact Hllm|]. split; [reflexivity|].
    split; [apply strip_white | apply strip_only_trims].
  - right. exists e. now destruct (matches LinkedInPostGenerator.caught e).
Qed.

Lemma agent_events_counts (evs : trace) :
  Forall (fun e => agent_event e = true) evs ->
  count is_build evs = 0 /\ count is_query evs = 0
  /\ count is_model_call evs = 0.
Proof.
  induction 1 as [|e evs He _ IH]; [now cbn|].
  rewrite !count_cons. destruct IH as (-> & -> & ->).
  destruct e; cbn in He; try discriminate; now cbn.
Qed.

Lemma generate_events (W : World) (self : PostGenerator.t)
    (topic tone audience : json) (latest_info : string) :
  let evs := events_of (PostGenerator.generate W self topic tone audience latest_info) in
  count is_build evs = 0 /\ count is_query evs <= 1
  /\ count is_model_call evs <= 1 /\ count is_agent_step evs = 0.
Proof.
  cbv zeta. unfold PostGenerator.generate, LLMChain_run, events_of.
  destruct (VectorDB.db (PostGenerator.vector_db self)) as [index|];
    [|cbn; lia].
  run_monad.
  destruct (similarity_search W (index_texts index) topic 3) as [docs|e]; cbn;
    [|lia].
  destruct (format _ _) as [text|e]; cbn; [|lia].
  destruct (llm_call W text) as [out|e]; cbn; lia.
Qed.

(** The events of [_get_latest_info] on the generator the program builds. *)
Lemma get_latest_info_events (W : World) (topic : json) :
  let evs := events_of (LinkedInPostGenerator._get_latest_info W
                          (built_generator W) topic) in
  Forall (fun e => agent_event e = true) evs
  /\ count is_agent_step evs <= 3.
Proof.
  cbv zeta. rewrite get_latest_info_cases. unfold events_of, agent_run.
  destruct (agent_loop_bounded W
              {| model := "gemini-1.5-flash-002"; api_key := google_api_key W |}
              "chat_history" (agent_question (py_str W topic)) 3 0 [])
    as (H1 & _ & _ & H4).
  unfold events_of in H1, H4.
  change (LinkedInPostGenerator.agent (built_generator W)) with
    (snd (LinkedInPostGenerator._setup_agent W
            {| model := "gemini-1.5-flash-002"; api_key := google_api_key W |}
            "chat_history")).
  change (max_iterations
            (snd (LinkedInPostGenerator._setup_agent W
                    {| model := "gemini-1.5-flash-002"; api_key := google_api_key W |}
                    "chat_history"))) with 3.
  destruct (agent_loop W _ (agent_question (py_str W topic)) 3 0 [])
    as [[info|e] evs];
    cbn [snd] in *; [now split|].
  destruct (matches LinkedInPostGenerator.caught e); cbn [snd]; [|now split].
  split.
  - apply Forall_app. split; [assumption|]. now repeat constructor.
  - rewrite count_app. cbn. lia.
Qed.

(** One call of [generate_post] on the built generator: the agent is run
    once, the index is queried at most once, the generation model is
    called at most once, and nothing is built. *)
Lemma generate_post_single_attempt (W : World) (topic tone audience : json) :
  let evs := events_of (LinkedInPostGenerator.generate_post W (built_generator W)
                          topic tone audience) in
  count is_build evs = 0
  /\ count is_query evs <= 1
  /\ count is_model_call evs <= 1
  /\ count is_agent_step evs <= 3.
Proof.
  cbv zeta. rewrite generate_post_cases. unfold events_of.
  destruct (get_latest_info_events W topic) as (Ha & Hn).
  unfold events_of in Ha, Hn.
  destruct (LinkedInPostGenerator._get_latest_info W (built_generator W) topic)
    as [[info|e] evs]; cbn [snd] in *;
    destruct (agent_events_counts evs Ha) as (Hb & Hq & Hm).
  - pose proof (generate_events W
                  (LinkedInPostGenerator.post_generator (built_generator W))
                  topic tone audience info) as Hg.
    cbv zeta in Hg. unfold events_of in Hg.
    destruct (PostGenerator.generate W _ topic tone audience info)
      as [[post|e] evs']; cbn [snd] in *.
    + rewrite !count_app. lia.
    + destruct (matches LinkedInPostGenerator.caught e); cbn [snd];
        rewrite ?count_app; cbn; lia.
  - lia.
Qed.

(** C6, as stated, fails in its first part: a value error raised inside
    the agent does not make [generate_post] fail; it is absorbed with a
    warning and the post is generated from the fallback text. *)
Lemma generate_post_survives_agent_value_error :
  result_of
    (LinkedInPostGenerator.generate_post agent_value_error_world
       (built_generator agent_value_error_world)
       (JStr "AI in marketing") (JStr "professional") (JStr "marketers"))
  = Ok "AI is changing marketing. #AI"
  /\ In (EvLog WARNING "Agent execution error: unexpected model output")
        (events_of
           (LinkedInPostGenerator.generate_post agent_value_error_world
              (built_generator agent_value_error_world)
              (JStr "AI in marketing") (JStr "professional") (JStr "marketers"))).
Proof. vm_compute. split; [reflexivity | right; left; reflexivity]. Qed.

(** C6 (amended): when the content composer (its index query or its model
    call) raises a value, type or key error during [generate_post],
    [generate_post] writes exactly one log line, "Post generation error:"
    with the error's text, and raises that same error again, unwrapped; an
    error of any other class passes through unchanged and unlogged.  A
    value, type or key error raised inside the agent does not fail
    [generate_post]: [_get_latest_info] absorbs it and generation goes on
    with the fallback text; an agent error of another class passes through
    unchanged.  There is no retry: one call runs the agent once and calls
    the generation model at most once. *)
Theorem generate_post_error_tier (W : World) (self : LinkedInPostGenerator.t)
    (topic tone audience : string) :
  let caught := [ValueError; TypeError; KeyError] in
  let info := LinkedInPostGenerator._get_latest_info W self (JStr topic) in
  let compose := PostGenerator.generate W
                   (LinkedInPostGenerator.post_generator self)
                   (JStr topic) (JStr tone) (JStr audience) in
  let post := LinkedInPostGenerator.generate_post W self
                (JStr topic) (JStr tone) (JStr audience) in
  (forall text evs e evs',
      info = (Ok text, evs) -> compose text = (Raise e, evs') ->
      matches caught e = true ->
      post = (Raise e,
              (evs ++ evs'
                 ++ [EvLog ERROR ("Post generation error: " ++ exn_str e)])%list))
  /\ (forall text evs e evs',
      info = (Ok text, evs) -> compose text = (Raise e, evs') ->
      matches caught e = false ->
      post = (Raise e, (evs ++ evs')%list))
  /\ (forall e evs,
      agent_run W (LinkedInPostGenerator.agent self) (agent_question topic)
        = (Raise e, evs) ->
      matches caught e = true ->
      result_of post
        = result_of (compose (LinkedInPostGenerator.fallback_info topic)))
  /\ (forall e evs,
      agent_run W (LinkedInPostGenerator.agent self) (agent_question topic)
        = (Raise e, evs) ->
      matches caught e = false ->
      post = (Raise e, evs))
  /\ (let evs := events_of (LinkedInPostGenerator.generate_post W
                              (built_generator W)
                              (JStr topic) (JStr tone) (JStr audience)) in
      count is_model_call evs <= 1 /\ count is_agent_step evs <= 3).
Proof.
  cbv zeta. rewrite generate_post_cases.
  change (matches LinkedInPostGenerator.caught) with
    (matches [ValueError; TypeError; KeyError]).
  split; [|split; [|split; [|split]]].
  - intros text evs e evs' -> -> ->. reflexivity.
  - intros text evs e evs' -> -> ->. reflexivity.
  - intros e evs Hrun Hm. rewrite get_latest_info_cases.
    change (py_str W (JStr topic)) with topic. rewrite Hrun.
    change (matches LinkedInPostGenerator.caught) with
      (matches [ValueError; TypeError; KeyError]).
    rewrite Hm. unfold result_of.
    destruct (PostGenerator.generate W _ (JStr topic) (JStr tone) (JStr audience) _)
      as [[p|e'] evs']; [reflexivity|].
    now destruct (matches [ValueError; TypeError; KeyError] e').
  - intros e evs Hrun Hm. rewrite get_latest_info_cases.
    change (py_str W (JStr topic)) with topic. rewrite Hrun.
    change (matches LinkedInPostGenerator.caught) with
      (matches [ValueError; TypeError; KeyError]).
    now rewrite Hm.
  - destruct (generate_post_single_attempt W (JStr topic) (JStr tone)
                (JStr audience))
      as (_ & _ & H1 & H2).
    now split.
Qed.

Lemma generate_post_error_tier_witness :
  LinkedInPostGenerator.generate_post rejecting_world
    (built_generator rejecting_world) (JStr "AI") (JStr "plain")
    (JStr "developers")
  = (Raise (mkExn ValueError "API key not valid. Please pass a valid API key."),
     ([EvAgentStep 0; EvToolCall "Web Search" "AI in marketing";
       EvHttpGet "https://api.duckduckgo.com/?q=AI in marketing&format=json";
       EvAgentStep 1]
      ++ [EvIndexQuery (JStr "AI") 3;
          EvModelCall (prompt_text "AI" "plain" "developers"
                         "AI adoption keeps growing."
                         (join " " (firstn 3 VectorDB._get_default_texts)))]
      ++ [EvLog ERROR
            "Post generation error: API key not valid. Please pass a valid API key."])%list).
Proof.
  destruct (generate_post_error_tier rejecting_world
              (built_generator rejecting_world) "AI" "plain" "developers")
    as (H & _).
  apply (H "AI adoption keeps growing."); reflexivity.
Defined.

(** ** The route *)

Arguments pipeline : simpl never.

Section RouteFacts.
Context (W : World) (req : request).

Lemma accepted_fields :
  accepted req = true ->
  (method req =? "OPTIONS") = false
  /\ (exists members, payload_of req = Parsed (JObj members))
  /\ (py_not (field req "topic") || py_not (field req "tone")
      || py_not (field req "audience")) = false.
Proof.
  unfold accepted, has_object_body. intros H.
  apply andb_true_iff in H. destruct H as [H H3].
  apply andb_true_iff in H. destruct H as [H1 H2].
  split; [now apply negb_true_iff|]. split; [|now apply negb_true_iff].
  destruct (payload_of req) as [[| | | | |members]|]; try discriminate.
  now exists members.
Qed.

Lemma route_preflight :
  method req = "OPTIONS" ->
  generate_post W req
  = (Ok {| body := JObj [("status", JStr "ok")]; status := 200 |}, []).
Proof. intros H. unfold generate_post. now rewrite H. Qed.

(** A request the framework refuses: the HTTP exception leaves the view. *)
Lemma route_refused (description : string) :
  (method req =? "OPTIONS") = false ->
  payload_of req = Refused description ->
  generate_post W req = (Raise (mkExn HTTPException description), []).
Proof.
  intros Hm Hp. unfold generate_post, get_json. rewrite Hm, Hp. reflexivity.
Qed.

(** A body that is not a JSON object: [data.get] raises an attribute
    error, which the view does not catch. *)
Lemma route_not_object (data : json) :
  (method req =? "OPTIONS") = false ->
  payload_of req = Parsed data ->
  has_object_body req = false ->
  generate_post W req
  = (Raise (mkExn AttributeError
              ("'" ++ type_name data ++ "' object has no attribute 'get'")),
     []).
Proof.
  intros Hm Hp Ho. unfold generate_post, get_json. rewrite Hm, Hp.
  unfold has_object_body in Ho. rewrite Hp in Ho.
  destruct data; try discriminate Ho; reflexivity.
Qed.

Lemma route_rejects :
  (method req =? "OPTIONS") = false ->
  has_object_body req = true ->
  (py_not (field req "topic") || py_not (field req "tone")
   || py_not (field req "audience")) = true ->
  generate_post W req
  = (Ok (error_response "Topic, tone, and audience are required"),
     [EvLog ERROR "API error: Topic, tone, and audience are required"]).
Proof.
  intros Hm Ho Hv. unfold generate_post, get_json. rewrite Hm.
  unfold has_object_body in Ho. unfold field in Hv.
  destruct (payload_of req) as [[| | | | |members]|]; try discriminate Ho.
  unfold try_except, bind, lift, py_get. cbn [fst snd]. rewrite Hv.
  reflexivity.
Qed.

Lemma route_accepts :
  accepted req = true ->
  generate_post W req
  = match pipeline W req with
    | (Ok post, evs) => (Ok (success_response post), evs)
    | (Raise e, evs) =>
        if matches LinkedInPostGenerator.caught e
        then (Ok (error_response (exn_str e)),
              (evs ++ [EvLog ERROR ("API error: " ++ exn_str e)])%list)
        else (Raise e, evs)
    end.
Proof.
  intros H. destruct (accepted_fields H) as (Hm & [members Hp] & Hv).
  unfold generate_post, get_json, pipeline. rewrite Hm.
  unfold field in *. rewrite Hp in *.
  unfold try_except, bind, lift, py_get, ret, raise, logging, emit.
  cbn [fst snd]. rewrite Hv.
  destruct (LinkedInPostGenerator.__init__ W) as [[g|e] evs]; cbn.
  - destruct (LinkedInPostGenerator.generate_post W g _ _ _) as [[post|e] evs'];
      cbn.
    + now rewrite app_nil_r.
    + destruct (matches LinkedInPostGenerator.caught e); reflexivity.
  - destruct (matches LinkedInPostGenerator.caught e); reflexivity.
Qed.

(** The four ways the view deals with a request it does not accept. *)
Lemma route_unaccepted :
  accepted req = false ->
  (method req = "OPTIONS"
   /\ generate_post W req
      = (Ok {| body := JObj [("status", JStr "ok")]; status := 200 |}, []))
  \/ (exists e, generate_post W req = (Raise e, [])
                /\ matches LinkedInPostGenerator.caught e = false
                /\ has_object_body req = false)
  \/ (generate_post W req
       = (Ok (error_response "Topic, tone, and audience are required"),
          [EvLog ERROR "API error: Topic, tone, and audience are required"])
      /\ has_object_body req = true).
Proof.
  intros Hacc. unfold accepted in Hacc.
  destruct (String.eqb_spec (method req) "OPTIONS") as [Hopt | Hopt].
  { left. split; [exact Hopt | now apply route_preflight]. }
  apply String.eqb_neq in Hopt.
  destruct (has_object_body req) eqn:Ho.
  - right. right. split; [|reflexivity]. apply route_rejects; try assumption.
    cbn in Hacc. now apply negb_false_iff in Hacc.
  - right. left. destruct (payload_of req) as [data|description] eqn:Hp.
    + exists (mkExn AttributeError
                ("'" ++ type_name data ++ "' object has no attribute 'get'")).
      split; [apply route_not_object; assumption|]. now split.
    + exists (mkExn HTTPException description).
      split; [apply route_refused; assumption|]. now split.
Qed.

(** The pipeline builds the index first, once, from the default texts. *)
Lemma pipeline_builds_once :
  exists rest,
    events_of (pipeline W req)
      = EvIndexBuild VectorDB._get_default_texts :: rest
    /\ count is_build rest = 0
    /\ count is_query rest <= 1
    /\ count is_model_call rest <= 1.
Proof.
  unfold pipeline. rewrite init_cases. unfold events_of. run_monad.
  destruct (faiss_from_texts W VectorDB._get_default_texts) as [[]|e]; cbn.
  - pose proof (generate_post_single_attempt W (field req "topic")
                  (field req "tone") (field req "audience")) as Hs.
    cbv zeta in Hs. unfold events_of in Hs.
    destruct (LinkedInPostGenerator.generate_post W (built_generator W) _ _ _)
      as [r evs]. cbn [snd] in *.
    eexists. split; [reflexivity|].
    rewrite !count_cons. cbn. lia.
  - eexists. split; [reflexivity|]. cbn. lia.
Qed.

End RouteFacts.

Lemma missing_or_empty_not (members : list (string * json)) (key : string) :
  missing_or_empty (member key members) ->
  py_not (match member key members with Some v => v | None => JNull end)
  = true.
Proof.
  unfold missing_or_empty. intros [-> | [-> | ->]]; reflexivity.
Qed.

(** C7, as stated, fails: when the body is JSON but not an object, all
    three fields are missing, yet the request does not get the validation
    response: [data.get] raises an attribute error, which leaves the
    view. *)
Lemma validation_skipped_for_array_body :
  generate_post calm_world array_body_request
  = (Raise (mkExn AttributeError "'list' object has no attribute 'get'"), []).
Proof. reflexivity. Qed.

(** C7 (amended): a POST request whose body is a JSON object in which the
    topic, the tone or the audience is missing, null or the empty string
    is answered with exactly
    {status: "error", message: "Topic, tone, and audience are required"}
    (sent with HTTP status 500); the only thing that happens besides is
    one log line: no index is built and no embedding, model or lookup
    service is called. *)
Theorem validation_rejects_before_any_call (W : World) (req : request)
    (members : list (string * json)) :
  method req <> "OPTIONS" ->
  payload_of req = Parsed (JObj members) ->
  missing_or_empty (member "topic" members)
    \/ missing_or_empty (member "tone" members)
    \/ missing_or_empty (member "audience" members) ->
  generate_post W req
    = (Ok {| body := JObj [("status", JStr "error");
                           ("message", JStr "Topic, tone, and audience are required")];
             status := 500 |},
       [EvLog ERROR "API error: Topic, tone, and audience are required"])
  /\ count is_service_call (events_of (generate_post W req)) = 0.
Proof.
  intros Hm Hp Hv.
  assert (H : generate_post W req
              = (Ok (error_response "Topic, tone, and audience are required"),
                 [EvLog ERROR "API error: Topic, tone, and audience are required"])).
  { apply route_rejects.
    - now apply String.eqb_neq.
    - unfold has_object_body. now rewrite Hp.
    - unfold field. rewrite Hp. rewrite !orb_true_iff.
      destruct Hv as [Hv | [Hv | Hv]];
        apply missing_or_empty_not in Hv; auto. }
  rewrite H. split; reflexivity.
Qed.

Lemma validation_rejects_before_any_call_witness :
  generate_post calm_world empty_topic_request
    = (Ok (error_response "Topic, tone, and audience are required"),
       [EvLog ERROR "API error: Topic, tone, and audience are required"])
  /\ generate_post calm_world missing_tone_request
    = (Ok (error_response "Topic, tone, and audience are required"),
       [EvLog ERROR "API error: Topic, tone, and audience are required"]).
Proof.
  split.
  - apply (validation_rejects_before_any_call calm_world empty_topic_request
             [ ("topic", JStr ""); ("tone", JStr "professional");
               ("audience", JStr "marketers") ]).
    + discriminate.
    + reflexivity.
    + left. right. right. reflexivity.
  - apply (validation_rejects_before_any_call calm_world missing_tone_request
             [ ("topic", JStr "AI in marketing");
               ("audience", JStr "marketers") ]).
    + discriminate.
    + reflexivity.
    + right. left. left. reflexivity.
Defined.

(** C4, as stated, fails: when the generation model rejects the call, the
    response carries the provider's own error text. *)
Lemma error_response_leaks_provider_text :
  result_of (generate_post rejecting_world valid_request)
  = Ok {| body := JObj [("status", JStr "error");
                        ("message",
                         JStr "API key not valid. Please pass a valid API key.")];
          status := 500 |}.
Proof. vm_compute. reflexivity. Qed.

(** C4 (amended): for every request that the view answers with a failure,
    the response is {status: "error", message: m} with HTTP status 500 and
    nothing else in it (no stack trace), where m is the text of the error
    that was raised: the validation sentence, or the text of the value,
    type or key error that stopped the generation.  The same text is
    written to the server log, in one "API error" line, the last event of
    the request. *)
Theorem failure_response_is_error_text (W : World) (req : request)
    (resp : response) (evs : trace) :
  generate_post W req = (Ok resp, evs) ->
  status resp <> 200%Z ->
  exists e evs0,
    matches [ValueError; TypeError; KeyError] e = true
    /\ resp = {| body := JObj [("status", JStr "error");
                               ("message", JStr (exn_str e))];
                 status := 500 |}
    /\ evs = (evs0 ++ [EvLog ERROR ("API error: " ++ exn_str e)])%list
    /\ ((e = mkExn ValueError "Topic, tone, and audience are required"
         /\ evs0 = [] /\ accepted req = false)
        \/ (pipeline W req = (Raise e, evs0) /\ accepted req = true)).
Proof.
  intros Hrun Hstatus.
  destruct (accepted req) eqn:Hacc.
  - rewrite (route_accepts W req Hacc) in Hrun.
    destruct (pipeline W req) as [[post|e] evs0].
    + injection Hrun as <- <-. now cbn in Hstatus.
    + change (matches LinkedInPostGenerator.caught e) with
        (matches [ValueError; TypeError; KeyError] e) in Hrun.
      destruct (matches [ValueError; TypeError; KeyError] e) eqn:Hm;
        [|discriminate].
      injection Hrun as <- <-. exists e, evs0.
      split; [exact Hm|]. split; [reflexivity|]. split; [reflexivity|].
      right. now split.
  - destruct (route_unaccepted W req Hacc) as [[_ H] | [(e & H & _) | [H _]]];
      rewrite H in Hrun.
    + injection Hrun as <- <-. now cbn in Hstatus.
    + discriminate.
    + injection Hrun as <- <-.
      exists (mkExn ValueError "Topic, tone, and audience are required"), [].
      split; [reflexivity|]. split; [reflexivity|]. split; [reflexivity|].
      left. now split.
Qed.

Lemma failure_response_is_error_text_witness :
  exists e evs0,
    matches [ValueError; TypeError; KeyError] e = true
    /\ error_response "API key not valid. Please pass a valid API key."
       = {| body := JObj [("status", JStr "error");
                          ("message", JStr (exn_str e))];
            status := 500 |}
    /\ snd (generate_post rejecting_world valid_request)
       = (evs0 ++ [EvLog ERROR ("API error: " ++ exn_str e)])%list
    /\ ((e = mkExn ValueError "Topic, tone, and audience are required"
         /\ evs0 = [] /\ accepted valid_request = false)
        \/ (pipeline rejecting_world valid_request = (Raise e, evs0)
            /\ accepted valid_request = true)).
Proof.
  apply (failure_response_is_error_text rejecting_world valid_request).
  - vm_compute. reflexivity.
  - discriminate.
Defined.

(** ** The index across requests *)

Lemma route_builds (W : World) (req : request) :
  count is_build (events_of (generate_post W req))
  = if accepted req then 1 else 0.
Proof.
  destruct (accepted req) eqn:Hacc.
  - rewrite (route_accepts W req Hacc).
    destruct (pipeline_builds_once W req) as (rest & Hev & Hb & _).
    unfold events_of in *.
    destruct (pipeline W req) as [[post|e] evs]; cbn [snd] in *; subst evs.
    + rewrite count_cons, Hb. reflexivity.
    + destruct (matches LinkedInPostGenerator.caught e); cbn [snd];
        rewrite ?count_app, ?count_cons, ?Hb; reflexivity.
  - destruct (route_unaccepted W req Hacc) as [[_ H] | [(e & H & _) | [H _]]];
      now rewrite H.
Qed.

Lemma route_rejected_queries (W : World) (req : request) :
  accepted req = false ->
  count is_query (events_of (generate_post W req)) = 0.
Proof.
  intros Hacc.
  destruct (route_unaccepted W req Hacc) as [[_ H] | [(e & H & _) | [H _]]];
    now rewrite H.
Qed.

Lemma serve_builds (W : World) (reqs : list request) :
  count is_build (snd (serve W reqs)) = List.length (filter accepted reqs).
Proof.
  induction reqs as [|req rest IH]; [reflexivity|].
  cbn [serve filter].
  pose proof (route_builds W req) as Hb. unfold events_of in Hb.
  destruct (generate_post W req) as [r evs].
  destruct (serve W rest) as [rs evs']. cbn [snd] in *.
  rewrite count_app, Hb, IH.
  now destruct (accepted req).
Qed.

(** C3, as stated, fails: nothing is built at startup, and two accepted
    requests build the index twice. *)
Lemma index_built_per_request :
  count is_build (events_of (main calm_world [])) = 0
  /\ count is_build (events_of (main calm_world [valid_request; valid_request])) = 2.
Proof. vm_compute. split; reflexivity. Qed.

(** C3 (amended): the index is not process-lifetime state.  Nothing is
    built at startup; every request that passes validation builds its own
    index, once, from the default texts, before anything else it does, and
    queries it at most once afterwards; a request that does not pass
    validation neither builds nor queries an index.  So serving a list of
    requests builds the index as many times as requests are accepted. *)
Theorem index_built_once_per_accepted_request (W : World) (reqs : list request) :
  count is_build (events_of (main W [])) = 0
  /\ count is_build (snd (serve W reqs)) = List.length (filter accepted reqs)
  /\ (forall req, accepted req = true ->
        exists rest,
          events_of (generate_post W req)
            = EvIndexBuild VectorDB._get_default_texts :: rest
          /\ count is_build rest = 0
          /\ count is_query rest <= 1)
  /\ (forall req, accepted req = false ->
        count is_build (events_of (generate_post W req)) = 0
        /\ count is_query (events_of (generate_post W req)) = 0).
Proof.
  split; [|split; [|split]].
  - unfold main, load_environment, events_of.
    destruct (google_api_key W) as [[|c k]|]; reflexivity.
  - apply serve_builds.
  - intros req Hacc. rewrite (route_accepts W req Hacc).
    destruct (pipeline_builds_once W req) as (rest & Hev & Hb & Hq & _).
    unfold events_of in *.
    destruct (pipeline W req) as [[post|e] evs]; cbn [snd] in *; subst evs.
    + exists rest. now split.
    + destruct (matches LinkedInPostGenerator.caught e); cbn [snd].
      * exists (rest ++ [EvLog ERROR ("API error: " ++ exn_str e)])%list.
        split; [reflexivity|]. rewrite !count_app. cbn. lia.
      * exists rest. now split.
  - intros req Hacc. split.
    + rewrite route_builds. now rewrite Hacc.
    + now apply route_rejected_queries.
Qed.

Example two_requests_two_indexes :
  snd (serve calm_world [valid_request; empty_topic_request; valid_request])
  = (snd (generate_post calm_world valid_request)
     ++ [EvLog ERROR "API error: Topic, tone, and audience are required"]
     ++ snd (generate_post calm_world valid_request))%list
  /\ count is_build
       (snd (serve calm_world [valid_request; empty_topic_request; valid_request]))
     = 2.
Proof. vm_compute. split; reflexivity. Qed.

(** A field that is not a string goes through as the Python value it is:
    the index is queried with the number, and the prompt and the agent's
    question carry its decimal writing. *)
Example numeric_topic_goes_through :
  accepted numeric_topic_request = true
  /\ result_of (generate_post calm_world numeric_topic_request)
     = Ok (success_response "AI is changing marketing. #AI")
  /\ In (EvIndexQuery (JNum 2024) 3)
        (events_of (generate_post calm_world numeric_topic_request))
  /\ py_str calm_world (JNum 2024) = "2024".
Proof.
  vm_compute. split; [reflexivity|]. split; [reflexivity|].
  split; [|reflexivity]. do 6 right. left. reflexivity.
Qed.

(** * Further properties *)

(** ** The web search tool *)



(** X2: when the lookup service answers, without an HTTP error status,
    with a JSON object, [search] neither raises nor logs; it returns the
    value of [AbstractText] itself whenever that value is truthy, whatever
    its JSON type (so the result need not be a string), taking the last
    one when the member is repeated, and the fixed sentence otherwise. *)
Theorem search_returns_truthy_abstract (W : World) (self : WebSearchTool.t)
    (query : string) (resp : http_response) (members : list (string * json)) :
  requests_get W (WebSearchTool.lookup_url query) = Ok resp ->
  ~ (400 <= status_code resp < 600)%Z ->
  json_body resp = Ok (JObj members) ->
  events_of (WebSearchTool.search W self query)
    = [EvHttpGet (WebSearchTool.lookup_url query)]
  /\ (forall v, member "AbstractText" members = Some v -> truthy v = true ->
        result_of (WebSearchTool.search W self query) = Ok v)
  /\ (forall v, member "AbstractText" members = Some v -> truthy v = false ->
        result_of (WebSearchTool.search W self query)
          = Ok (JStr WebSearchTool.unable_to_fetch))
  /\ (member "AbstractText" members = None ->
        result_of (WebSearchTool.search W self query)
          = Ok (JStr WebSearchTool.unable_to_fetch)).
Proof.
  intros Hget Hst Hjs.
  rewrite (search_object W self query resp members Hget Hst Hjs).
  unfold events_of, result_of. cbn [fst snd].
  split; [reflexivity|]. split; [|split].
  - intros v -> ->. reflexivity.
  - intros v -> ->. reflexivity.
  - intros ->. reflexivity.
Qed.

Lemma search_returns_truthy_abstract_witness :
  result_of (WebSearchTool.search number_abstract_world WebSearchTool.new "AI")
  = Ok (JNum 42).
Proof.
  destruct (search_returns_truthy_abstract number_abstract_world
              WebSearchTool.new "AI"
              {| status_code := 200;
                 json_body := Ok (JObj [("AbstractText", JStr "first");
                                        ("AbstractText", JNum 42)]) |}
              [("AbstractText", JStr "first"); ("AbstractText", JNum 42)]
              eq_refl ltac:(cbn; lia) eq_refl) as (_ & H & _).
  apply H; reflexivity.
Defined.

(** X3: an error of the HTTP call, or of decoding the body, whose class
    the handler does not name is not absorbed: it leaves [search]
    unchanged, and nothing is logged. *)
Theorem search_lets_other_errors_through (W : World) (self : WebSearchTool.t)
    (query : string) (e : exn) :
  matches [RequestException; JSONDecodeError; KeyError] e = false ->
  (requests_get W (WebSearchTool.lookup_url query) = Raise e ->
     WebSearchTool.search W self query
       = (Raise e, [EvHttpGet (WebSearchTool.lookup_url query)]))
  /\ (forall resp,
        requests_get W (WebSearchTool.lookup_url query) = Ok resp ->
        ~ (400 <= status_code resp < 600)%Z ->
        json_body resp = Raise e ->
        WebSearchTool.search W self query
          = (Raise e, [EvHttpGet (WebSearchTool.lookup_url query)])).
Proof.
  intros Hm.
  change (matches [RequestException; JSONDecodeError; KeyError] e)
    with (matches WebSearchTool.network_errors e) in Hm.
  split.
  - intros Hget. unfold WebSearchTool.search, WebSearchTool._run. run_monad.
    rewrite Hget; cbn. now rewrite Hm.
  - intros resp Hget Hst Hjs.
    unfold WebSearchTool.search, WebSearchTool._run. run_monad.
    rewrite Hget; cbn. unfold raise_for_status.
    replace ((400 <=? status_code resp)%Z && (status_code resp <? 600)%Z)
      with false
      by (symmetry; apply andb_false_iff;
          destruct (Z.leb_spec 400 (status_code resp));
          destruct (Z.ltb_spec (status_code resp) 600); auto; lia).
    cbn. rewrite Hjs; cbn. now rewrite Hm.
Qed.

Lemma search_lets_other_errors_through_witness :
  WebSearchTool.search type_error_world WebSearchTool.new "AI"
  = (Raise (mkExn TypeError "expected string or bytes-like object"),
     [EvHttpGet (WebSearchTool.lookup_url "AI")]).
Proof.
  apply (search_lets_other_errors_through type_error_world WebSearchTool.new
           "AI" (mkExn TypeError "expected string or bytes-like object"));
    reflexivity.
Defined.

(** ** The vector database *)

(** X4: when the index build fails, with an error of any class,
    [initialize] writes exactly one error line with the error's text and
    raises that same error; this holds for the default texts and for
    texts loaded from a file alike. *)
Theorem initialize_reraises_build_failure (W : World) (self : VectorDB.t)
    (texts_file : option string) (texts : list string) (e : exn) :
  chosen_texts W texts_file = Ok texts ->
  faiss_from_texts W texts = Raise e ->
  VectorDB.initialize W self texts_file
  = (Raise e,
     [EvIndexBuild texts;
      EvLog ERROR ("Vector database initialization error: " ++ exn_str e)]).
Proof.
  intros Htexts Hbuild. unfold VectorDB.initialize, VectorDB._load_texts.
  destruct texts_file as [f|]; cbn in Htexts; run_monad.
  - rewrite Htexts; cbn. rewrite Hbuild; cbn.
    now rewrite every_exception_is_exception.
  - injection Htexts as <-. rewrite Hbuild; cbn.
    now rewrite every_exception_is_exception.
Qed.

Lemma initialize_reraises_build_failure_witness :
  VectorDB.initialize build_provider_error_world
    (VectorDB.new {| model_name := "m" |}) None
  = (Raise (mkExn ProviderError "model download failed"),
     [EvIndexBuild VectorDB._get_default_texts;
      EvLog ERROR "Vector database initialization error: model download failed"]).
Proof.
  apply (initialize_reraises_build_failure build_provider_error_world
           (VectorDB.new {| model_name := "m" |}) None
           VectorDB._get_default_texts
           (mkExn ProviderError "model download failed"));
    reflexivity.
Defined.

(** X5: when a texts file is given and reading it fails, [initialize]
    raises the reading error at once: no build is attempted and, unlike
    for a build failure, nothing is logged. *)
Theorem initialize_load_failure_is_silent (W : World) (self : VectorDB.t)
    (file_path : string) (e : exn) :
  json_load_file W file_path = Raise e ->
  VectorDB.initialize W self (Some file_path) = (Raise e, []).
Proof.
  intros Hload. unfold VectorDB.initialize, VectorDB._load_texts. run_monad.
  now rewrite Hload.
Qed.

Lemma initialize_load_failure_is_silent_witness :
  VectorDB.initialize missing_file_world
    (VectorDB.new {| model_name := "m" |}) (Some "texts.json")
  = (Raise (mkExn EnvironmentError "No such file or directory"), []).
Proof.
  apply (initialize_load_failure_is_silent missing_file_world
           (VectorDB.new {| model_name := "m" |}) "texts.json"
           (mkExn EnvironmentError "No such file or directory")).
  reflexivity.
Defined.

Lemma initialize_ok (W : World) (self : VectorDB.t)
    (texts_file : option string) (texts : list string) :
  chosen_texts W texts_file = Ok texts ->
  faiss_from_texts W texts = Ok tt ->
  VectorDB.initialize W self texts_file
  = (Ok {| VectorDB.embeddings := VectorDB.embeddings self;
           VectorDB.db := Some {| index_texts := texts |} |},
     [EvIndexBuild texts;
      EvLog INFO "Vector database initialized successfully"]).
Proof.
  intros Htexts Hbuild. unfold VectorDB.initialize, VectorDB._load_texts.
  destruct texts_file as [f|]; cbn in Htexts; run_monad.
  - rewrite Htexts; cbn. now rewrite Hbuild.
  - injection Htexts as <-. now rewrite Hbuild.
Qed.

(** X6: a composer set up on a database initialised from a texts file
    queries the index built from that file's texts, not from the default
    ones: initialising and then generating builds the index once over the
    chosen texts, queries it for the topic, calls the model once and
    returns the stripped answer. *)
Theorem initialize_then_generate (W : World) (emb : Embeddings)
    (llm : ChatModel) (texts_file : option string) (texts : list string)
    (topic tone audience info : string) (docs : list Document) (out : string) :
  chosen_texts W texts_file = Ok texts ->
  faiss_from_texts W texts = Ok tt ->
  similarity_search W texts (JStr topic) 3 = Ok docs ->
  llm_call W (prompt_text topic tone audience info
                (join " " (map page_content docs))) = Ok out ->
  (vector_db <- VectorDB.initialize W (VectorDB.new emb) texts_file;;
   PostGenerator.generate W (PostGenerator.new llm vector_db)
     (JStr topic) (JStr tone) (JStr audience) info)
  = (Ok (strip out),
     [EvIndexBuild texts;
      EvLog INFO "Vector database initialized successfully";
      EvIndexQuery (JStr topic) 3;
      EvModelCall (prompt_text topic tone audience info
                     (join " " (map page_content docs)))]).
Proof.
  intros Htexts Hbuild Hdocs Hllm.
  rewrite (initialize_ok W (VectorDB.new emb) texts_file texts Htexts Hbuild).
  unfold bind.
  rewrite (generate_cases W
             (PostGenerator.new llm
                {| VectorDB.embeddings := VectorDB.embeddings (VectorDB.new emb);
                   VectorDB.db := Some {| index_texts := texts |} |})
             (JStr topic) (JStr tone) (JStr audience) info
             {| index_texts := texts |} eq_refl eq_refl).
  cbn [index_texts]. rewrite Hdocs. cbv zeta.
  change (py_str W (JStr topic)) with topic.
  change (py_str W (JStr tone)) with tone.
  change (py_str W (JStr audience)) with audience.
  rewrite Hllm. reflexivity.
Qed.

Lemma initialize_then_generate_witness :
  result_of
    (vector_db <- VectorDB.initialize texts_file_world
                    (VectorDB.new {| model_name := "m" |}) (Some "texts.json");;
     PostGenerator.generate texts_file_world
       (PostGenerator.new {| model := "g"; api_key := None |} vector_db)
       (JStr "AI") (JStr "plain") (JStr "developers") "news")
  = Ok "AI is changing marketing. #AI".
Proof.
  exact (f_equal fst
           (initialize_then_generate texts_file_world {| model_name := "m" |}
              {| model := "g"; api_key := None |} (Some "texts.json")
              ["Quarterly report on AI."; "Notes on retail marketing."]
              "AI" "plain" "developers" "news"
              [mkDocument "Quarterly report on AI.";
               mkDocument "Notes on retail marketing."]
              "  AI is changing marketing. #AI
"
              eq_refl eq_refl eq_refl eq_refl)).
Defined.

(** ** The content composer *)

(** X7: the ways [generate] fails.  On a database that was never
    initialised it raises an attribute error before any service is
    called; when the index query raises, the error goes to the caller
    unchanged and the model is never called; when the model call raises,
    the error goes to the caller unchanged after that one call. *)
Theorem generate_failure_modes (W : World) (self : PostGenerator.t)
    (topic tone audience latest_info : string) :
  (VectorDB.db (PostGenerator.vector_db self) = None ->
     PostGenerator.generate W self (JStr topic) (JStr tone) (JStr audience)
         latest_info
     = (Raise (mkExn AttributeError
                 "'NoneType' object has no attribute 'similarity_search'"),
        []))
  /\ (forall index e,
        VectorDB.db (PostGenerator.vector_db self) = Some index ->
        similarity_search W (index_texts index) (JStr topic) 3 = Raise e ->
        PostGenerator.generate W self (JStr topic) (JStr tone) (JStr audience)
         latest_info
        = (Raise e, [EvIndexQuery (JStr topic) 3]))
  /\ (forall index docs e,
        VectorDB.db (PostGenerator.vector_db self) = Some index ->
        PostGenerator.prompt self = PostGenerator._create_prompt_template ->
        similarity_search W (index_texts index) (JStr topic) 3 = Ok docs ->
        llm_call W (prompt_text topic tone audience latest_info
                      (join " " (map page_content docs))) = Raise e ->
        PostGenerator.generate W self (JStr topic) (JStr tone) (JStr audience)
         latest_info
        = (Raise e,
           [EvIndexQuery (JStr topic) 3;
            EvModelCall (prompt_text topic tone audience latest_info
                           (join " " (map page_content docs)))])).
Proof.
  split; [|split].
  - intros Hdb. unfold PostGenerator.generate. now rewrite Hdb.
  - intros index e Hdb Hq. unfold PostGenerator.generate. rewrite Hdb.
    run_monad. now rewrite Hq.
  - intros index docs e Hdb Hprompt Hq Hllm.
    rewrite (generate_cases W self (JStr topic) (JStr tone) (JStr audience)
               latest_info index Hdb Hprompt).
    rewrite Hq. cbv zeta.
    change (py_str W (JStr topic)) with topic.
    change (py_str W (JStr tone)) with tone.
    change (py_str W (JStr audience)) with audience.
    now rewrite Hllm.
Qed.

Lemma generate_failure_modes_witness :
  PostGenerator.generate calm_world
    (PostGenerator.new {| model := "g"; api_key := None |}
       (VectorDB.new {| model_name := "m" |}))
    (JStr "AI") (JStr "plain") (JStr "developers") "news"
  = (Raise (mkExn AttributeError
              "'NoneType' object has no attribute 'similarity_search'"), [])
  /\ PostGenerator.generate query_failure_world
       (LinkedInPostGenerator.post_generator (built_generator query_failure_world))
       (JStr "AI") (JStr "plain") (JStr "developers") "news"
     = (Raise (mkExn ValueError "index is empty"), [EvIndexQuery (JStr "AI") 3])
  /\ result_of
       (PostGenerator.generate rejecting_world
          (LinkedInPostGenerator.post_generator (built_generator rejecting_world))
          (JStr "AI") (JStr "plain") (JStr "developers") "news")
     = Raise (mkExn ValueError "API key not valid. Please pass a valid API key.").
Proof.
  split; [|split].
  - apply (generate_failure_modes calm_world
             (PostGenerator.new {| model := "g"; api_key := None |}
                (VectorDB.new {| model_name := "m" |}))
             "AI" "plain" "developers" "news").
    reflexivity.
  - destruct (generate_failure_modes query_failure_world
                (LinkedInPostGenerator.post_generator
                   (built_generator query_failure_world))
                "AI" "plain" "developers" "news") as (_ & H & _).
    apply (H {| index_texts := VectorDB._get_default_texts |}); reflexivity.
  - destruct (generate_failure_modes rejecting_world
                (LinkedInPostGenerator.post_generator
                   (built_generator rejecting_world))
                "AI" "plain" "developers" "news") as (_ & _ & H).
    exact (f_equal fst
             (H {| index_texts := VectorDB._get_default_texts |}
                (map mkDocument (firstn 3 VectorDB._get_default_texts))
                (mkExn ValueError "API key not valid. Please pass a valid API key.")
                eq_refl eq_refl eq_refl eq_refl)).
Defined.

(** X8: the prompt template has exactly five replacement fields, each
    once, in the order topic, tone, audience, latest_info, context.
    Filling it never fails, whatever the five values are: each value is
    put in as it is, braces and field names inside a value included, and
    the text between the fields is kept. *)
Theorem prompt_filling_is_verbatim :
  exists s0 s1 s2 s3 s4 s5,
    template PostGenerator._create_prompt_template
      = s0 ++ "{topic}" ++ s1 ++ "{tone}" ++ s2 ++ "{audience}" ++ s3
           ++ "{latest_info}" ++ s4 ++ "{context}" ++ s5
    /\ literal_parts (s0 ++ s1 ++ s2 ++ s3 ++ s4 ++ s5)
       = [s0 ++ s1 ++ s2 ++ s3 ++ s4 ++ s5]
    /\ forall topic tone audience latest_info context,
         format (template PostGenerator._create_prompt_template)
           [ ("topic", topic); ("tone", tone); ("audience", audience);
             ("latest_info", latest_info); ("context", context) ]
         = Ok (s0 ++ topic ++ s1 ++ tone ++ s2 ++ audience ++ s3
                  ++ latest_info ++ s4 ++ context ++ s5).
Proof.
  set (parts := literal_parts (template PostGenerator._create_prompt_template)).
  exists (nth 0 parts ""), (nth 1 parts ""), (nth 2 parts ""),
         (nth 3 parts ""), (nth 4 parts ""), (nth 5 parts "").
  split; [vm_compute; reflexivity|].
  split; [vm_compute; reflexivity|].
  intros topic tone audience latest_info context.
  vm_compute. reflexivity.
Qed.

(** ** What [strip] leaves *)

(** X9: a post that [generate] returns neither begins nor ends with a
    white-space character (it may be empty). *)
Theorem generated_post_is_trimmed (W : World) (self : PostGenerator.t)
    (topic tone audience : json) (latest_info post : string) :
  result_of (PostGenerator.generate W self topic tone audience latest_info)
    = Ok post ->
  starts_with_space post = false /\ ends_with_space post = false.
Proof.
  intros H.
  destruct (generate_returns_stripped W self topic tone audience latest_info
              post H) as (text & out & _ & ->).
  apply strip_is_trimmed.
Qed.

Lemma generated_post_is_trimmed_witness :
  starts_with_space "AI is changing marketing. #AI" = false
  /\ ends_with_space "AI is changing marketing. #AI" = false.
Proof.
  apply (generated_post_is_trimmed calm_world
           (LinkedInPostGenerator.post_generator (built_generator calm_world))
           (JStr "AI in marketing") (JStr "professional") (JStr "marketers")
           "AI adoption keeps growing.").
  vm_compute. reflexivity.
Defined.

Example space_predicates :
  starts_with_space "  x" = true /\ ends_with_space "x
" = true /\ starts_with_space "x " = false /\ ends_with_space " x" = false
  /\ starts_with_space "" = false.
Proof. vm_compute. repeat split. Qed.

(** ** The route and the program *)

Lemma generate_ok_events (W : World) (self : PostGenerator.t)
    (topic tone audience : json) (latest_info post : string) (evs : trace) :
  PostGenerator.generate W self topic tone audience latest_info = (Ok post, evs) ->
  exists text out,
    llm_call W text = Ok out /\ post = strip out
    /\ evs = [EvIndexQuery topic 3; EvModelCall text].
Proof.
  unfold PostGenerator.generate, LLMChain_run.
  destruct (VectorDB.db (PostGenerator.vector_db self)) as [index|];
    [|discriminate].
  run_monad.
  destruct (similarity_search W (index_texts index) topic 3) as [docs|e]; cbn;
    [|discriminate].
  destruct (format _ _) as [text|e]; cbn; [|discriminate].
  destruct (llm_call W text) as [out|e] eqn:Hllm; cbn; [|discriminate].
  intros H. injection H as <- <-. now exists text, out.
Qed.

Lemma pipeline_cases (W : World) (req : request) :
  pipeline W req
  = match faiss_from_texts W VectorDB._get_default_texts with
    | Ok _ =>
        let '(r, evs) :=
          LinkedInPostGenerator.generate_post W (built_generator W)
            (field req "topic") (field req "tone") (field req "audience") in
        (r, ([EvIndexBuild VectorDB._get_default_texts;
              EvLog INFO "Vector database initialized successfully"] ++ evs)%list)
    | Raise e =>
        (Raise e,
         [EvIndexBuild VectorDB._get_default_texts;
          EvLog ERROR ("Vector database initialization error: " ++ exn_str e)])
    end.
Proof.
  unfold pipeline. rewrite init_cases. unfold bind.
  destruct (faiss_from_texts W VectorDB._get_default_texts) as [[]|e];
    reflexivity.
Qed.

(** The agent of the built generator asks its model between once and
    three times. *)
Lemma get_latest_info_steps (W : World) (topic : json) :
  1 <= count is_agent_step
         (events_of (LinkedInPostGenerator._get_latest_info W
                       (built_generator W) topic)) <= 3.
Proof.
  split; [|now destruct (get_latest_info_events W topic)].
  rewrite get_latest_info_cases. unfold events_of, agent_run.
  pose proof (agent_loop_starts W
                {| model := "gemini-1.5-flash-002"; api_key := google_api_key W |}
                "chat_history" (agent_question (py_str W topic)) 2 0 []) as H.
  unfold events_of in H.
  change (LinkedInPostGenerator.agent (built_generator W)) with
    (snd (LinkedInPostGenerator._setup_agent W
            {| model := "gemini-1.5-flash-002"; api_key := google_api_key W |}
            "chat_history")).
  change (max_iterations
            (snd (LinkedInPostGenerator._setup_agent W
                    {| model := "gemini-1.5-flash-002"; api_key := google_api_key W |}
                    "chat_history"))) with 3.
  destruct (agent_loop W _ (agent_question (py_str W topic)) 3 0 [])
    as [[info|e] evs]; cbn [snd] in *; [exact H|].
  destruct (matches LinkedInPostGenerator.caught e); cbn [snd]; [|exact H].
  rewrite count_app. lia.
Qed.

(** X10: what leaves the view as an exception is never a value, type or
    key error, and the view wrote no "API error" line for it.  It arises
    in one of three places: the framework refused the body of the request
    ([get_json] raised an HTTP exception); the body was JSON but not an
    object ([data.get] raised an attribute error); or the request had
    passed validation and the error was raised while building the
    generator or generating the post.  In the first two cases nothing has
    happened yet: no log line and no service call. *)
Theorem view_raises_only_other_errors (W : World) (req : request) (e : exn) :
  result_of (generate_post W req) = Raise e ->
  matches [ValueError; TypeError; KeyError] e = false
  /\ ((exists description,
         payload_of req = Refused description
         /\ e = mkExn HTTPException description
         /\ events_of (generate_post W req) = [])
      \/ (exists data,
            payload_of req = Parsed data
            /\ has_object_body req = false
            /\ e = mkExn AttributeError
                     ("'" ++ type_name data ++ "' object has no attribute 'get'")
            /\ events_of (generate_post W req) = [])
      \/ (accepted req = true
          /\ pipeline W req = (Raise e, events_of (generate_post W req)))).
Proof.
  unfold result_of, events_of. intros Hr.
  destruct (accepted req) eqn:Hacc.
  - rewrite (route_accepts W req Hacc) in *.
    destruct (pipeline W req) as [[post|e'] evs]; [discriminate|].
    change (matches LinkedInPostGenerator.caught e') with
      (matches [ValueError; TypeError; KeyError] e') in *.
    destruct (matches [ValueError; TypeError; KeyError] e') eqn:Hm;
      [discriminate|].
    cbn in *. injection Hr as <-. split; [exact Hm|]. right. right. now split.
  - unfold accepted in Hacc.
    destruct (String.eqb_spec (method req) "OPTIONS") as [Hopt | Hopt].
    { rewrite (route_preflight W req Hopt) in Hr. discriminate. }
    apply String.eqb_neq in Hopt.
    destruct (has_object_body req) eqn:Ho.
    + cbn in Hacc. apply negb_false_iff in Hacc.
      rewrite (route_rejects W req Hopt Ho Hacc) in Hr. discriminate.
    + destruct (payload_of req) as [data|description] eqn:Hp.
      * rewrite (route_not_object W req data Hopt Hp Ho) in *.
        cbn in *. injection Hr as <-. split; [reflexivity|].
        right. left. exists data. now repeat split.
      * rewrite (route_refused W req description Hopt Hp) in *.
        cbn in *. injection Hr as <-. split; [reflexivity|].
        left. exists description. now repeat split.
Qed.

Lemma view_raises_only_other_errors_witness :
  (matches [ValueError; TypeError; KeyError]
     (mkExn ProviderError "429 Resource has been exhausted") = false
   /\ accepted valid_request = true
   /\ pipeline provider_down_world valid_request
      = (Raise (mkExn ProviderError "429 Resource has been exhausted"),
         events_of (generate_post provider_down_world valid_request)))
  /\ matches [ValueError; TypeError; KeyError]
       (mkExn AttributeError "'list' object has no attribute 'get'") = false
  /\ matches [ValueError; TypeError; KeyError]
       (mkExn HTTPException "415 Unsupported Media Type") = false.
Proof.
  split; [|split].
  - destruct (view_raises_only_other_errors provider_down_world valid_request
                (mkExn ProviderError "429 Resource has been exhausted"))
      as (Hm & [(d & Hp & _) | [(data & _ & Ho & _) | (Hacc & Hpipe)]]).
    + vm_compute. reflexivity.
    + discriminate Hp.
    + discriminate Ho.
    + now repeat split.
  - apply (view_raises_only_other_errors calm_world array_body_request).
    reflexivity.
  - apply (view_raises_only_other_errors calm_world no_json_request).
    reflexivity.
Defined.

(** X11: a success response is earned: when the view answers a request,
    other than a preflight, with status 200, the request had passed
    validation, the index was built exactly once and queried exactly
    once, the agent loop asked its model between once and three times,
    the content composer ran its chain exactly once, and the post in the
    response is the model's answer to that one call with the white space
    at its ends removed. *)
Theorem success_response_is_earned (W : World) (req : request)
    (resp : response) (evs : trace) :
  generate_post W req = (Ok resp, evs) ->
  status resp = 200%Z ->
  method req <> "OPTIONS" ->
  accepted req = true
  /\ count is_build evs = 1
  /\ count is_query evs = 1
  /\ 1 <= count is_agent_step evs <= 3
  /\ count is_model_call evs = 1
  /\ exists text out,
       In (EvModelCall text) evs
       /\ llm_call W text = Ok out
       /\ resp = {| body := JObj [("status", JStr "success");
                                  ("post", JStr (strip out))];
                    status := 200 |}.
Proof.
  intros Hrun Hstatus Hopt.
  destruct (accepted req) eqn:Hacc.
  2:{ destruct (route_unaccepted W req Hacc)
        as [[Hm _] | [(e & H & _) | [H _]]].
      - contradiction.
      - rewrite H in Hrun. discriminate.
      - rewrite H in Hrun. injection Hrun as <- <-. discriminate Hstatus. }
  split; [reflexivity|].
  rewrite (route_accepts W req Hacc), pipeline_cases in Hrun.
  destruct (faiss_from_texts W VectorDB._get_default_texts) as [[]|e].
  2:{ destruct (matches LinkedInPostGenerator.caught e);
        [injection Hrun as <- <-; discriminate Hstatus | discriminate]. }
  rewrite generate_post_cases in Hrun.
  pose proof (get_latest_info_events W (field req "topic")) as He.
  pose proof (get_latest_info_steps W (field req "topic")) as Hsteps.
  cbv zeta in He. unfold events_of in He, Hsteps.
  destruct (LinkedInPostGenerator._get_latest_info W (built_generator W)
              (field req "topic")) as [[info|e] evs0]; cbn [snd] in He, Hsteps.
  2:{ destruct (matches LinkedInPostGenerator.caught e);
        [injection Hrun as <- <-; discriminate Hstatus | discriminate]. }
  destruct He as (He & _).
  destruct (agent_events_counts evs0 He) as (Hb & Hq & Hm).
  destruct (PostGenerator.generate W
              (LinkedInPostGenerator.post_generator (built_generator W))
              (field req "topic") (field req "tone")
              (field req "audience") info) as [[post|e] evs1] eqn:Hgen.
  2:{ destruct (matches LinkedInPostGenerator.caught e);
        [destruct (matches LinkedInPostGenerator.caught e);
           [injection Hrun as <- <-; discriminate Hstatus | discriminate]
        | destruct (matches LinkedInPostGenerator.caught e);
           [injection Hrun as <- <-; discriminate Hstatus | discriminate]]. }
  destruct (generate_ok_events W _ _ _ _ _ _ _ Hgen)
    as (text & out & Hllm & -> & ->).
  injection Hrun as <- <-.
  rewrite !count_cons, !count_app, Hb, Hq, Hm. cbn.
  repeat (split; [try reflexivity; try lia|]).
  exists text, out. split; [|now split].
  right. right. apply in_or_app. right. right. now left.
Qed.

Lemma success_response_is_earned_witness :
  accepted valid_request = true
  /\ count is_build (events_of (generate_post calm_world valid_request)) = 1
  /\ count is_query (events_of (generate_post calm_world valid_request)) = 1
  /\ 1 <= count is_agent_step
            (events_of (generate_post calm_world valid_request)) <= 3
  /\ count is_model_call (events_of (generate_post calm_world valid_request)) = 1
  /\ exists text out,
       In (EvModelCall text) (events_of (generate_post calm_world valid_request))
       /\ llm_call calm_world text = Ok out
       /\ success_response "AI is changing marketing. #AI"
          = {| body := JObj [("status", JStr "success");
                             ("post", JStr (strip out))];
               status := 200 |}.
Proof.
  apply (success_response_is_earned calm_world valid_request).
  - vm_compute. reflexivity.
  - reflexivity.
  - discriminate.
Defined.

(** X12: when the index cannot be built for a request that passed
    validation, nothing else is attempted: no agent run, no lookup, no
    index query and no model call.  A value, type or key error is
    answered with status 500 and the error's text, after two log lines
    (the initialisation error and the API error); an error of another
    class leaves the view, after the initialisation error line only. *)
Theorem view_when_index_build_fails (W : World) (req : request) (e : exn) :
  accepted req = true ->
  faiss_from_texts W VectorDB._get_default_texts = Raise e ->
  generate_post W req
  = if matches [ValueError; TypeError; KeyError] e
    then (Ok {| body := JObj [("status", JStr "error");
                              ("message", JStr (exn_str e))];
                status := 500 |},
          [EvIndexBuild VectorDB._get_default_texts;
           EvLog ERROR ("Vector database initialization error: " ++ exn_str e);
           EvLog ERROR ("API error: " ++ exn_str e)])
    else (Raise e,
          [EvIndexBuild VectorDB._get_default_texts;
           EvLog ERROR ("Vector database initialization error: " ++ exn_str e)]).
Proof.
  intros Hacc Hbuild.
  rewrite (route_accepts W req Hacc), pipeline_cases, Hbuild.
  change (matches LinkedInPostGenerator.caught e) with
    (matches [ValueError; TypeError; KeyError] e).
  destruct (matches [ValueError; TypeError; KeyError] e); reflexivity.
Qed.

Lemma view_when_index_build_fails_witness :
  generate_post build_value_error_world valid_request
  = (Ok (error_response "embedding dimension mismatch"),
     [EvIndexBuild VectorDB._get_default_texts;
      EvLog ERROR "Vector database initialization error: embedding dimension mismatch";
      EvLog ERROR "API error: embedding dimension mismatch"])
  /\ generate_post build_provider_error_world valid_request
     = (Raise (mkExn ProviderError "model download failed"),
        [EvIndexBuild VectorDB._get_default_texts;
         EvLog ERROR "Vector database initialization error: model download failed"]).
Proof.
  split.
  - exact (view_when_index_build_fails build_value_error_world valid_request
             (mkExn ValueError "embedding dimension mismatch")
             eq_refl eq_refl).
  - exact (view_when_index_build_fails build_provider_error_world valid_request
             (mkExn ProviderError "model download failed")
             eq_refl eq_refl).
Defined.

(** X13: a value, type or key error of the content composer is logged
    twice, once by each tier, with the same text: [generate_post] writes
    "Post generation error" and raises it again, and the view writes "API
    error" and answers with status 500 and that text. *)
Theorem composer_error_is_logged_twice (W : World) (req : request)
    (info : string) (evs evs' : trace) (e : exn) :
  accepted req = true ->
  faiss_from_texts W VectorDB._get_default_texts = Ok tt ->
  LinkedInPostGenerator._get_latest_info W (built_generator W)
    (field req "topic") = (Ok info, evs) ->
  PostGenerator.generate W
    (LinkedInPostGenerator.post_generator (built_generator W))
    (field req "topic") (field req "tone") (field req "audience") info
    = (Raise e, evs') ->
  matches [ValueError; TypeError; KeyError] e = true ->
  generate_post W req
  = (Ok {| body := JObj [("status", JStr "error");
                         ("message", JStr (exn_str e))];
           status := 500 |},
     ([EvIndexBuild VectorDB._get_default_texts;
       EvLog INFO "Vector database initialized successfully"]
      ++ evs ++ evs'
      ++ [EvLog ERROR ("Post generation error: " ++ exn_str e);
          EvLog ERROR ("API error: " ++ exn_str e)])%list).
Proof.
  intros Hacc Hbuild Hinfo Hgen Hm.
  change (matches [ValueError; TypeError; KeyError] e)
    with (matches LinkedInPostGenerator.caught e) in Hm.
  rewrite (route_accepts W req Hacc), pipeline_cases, Hbuild.
  rewrite generate_post_cases, Hinfo, Hgen, Hm, Hm.
  unfold error_response. f_equal.
  rewrite <- !app_assoc. reflexivity.
Qed.

Lemma composer_error_is_logged_twice_witness :
  count is_log
    (filter (fun ev =>
               match ev with EvLog ERROR _ => true | _ => false end)
       (events_of (generate_post rejecting_world valid_request))) = 2
  /\ result_of (generate_post rejecting_world valid_request)
     = Ok (error_response "API key not valid. Please pass a valid API key.").
Proof.
  pose proof (composer_error_is_logged_twice rejecting_world valid_request
                "AI adoption keeps growing."
                [EvAgentStep 0; EvToolCall "Web Search" "AI in marketing";
                 EvHttpGet (WebSearchTool.lookup_url "AI in marketing");
                 EvAgentStep 1]
                [EvIndexQuery (JStr "AI in marketing") 3;
                 EvModelCall (prompt_text "AI in marketing" "professional"
                                "marketers" "AI adoption keeps growing."
                                (join " " (firstn 3 VectorDB._get_default_texts)))]
                (mkExn ValueError "API key not valid. Please pass a valid API key.")
                eq_refl eq_refl eq_refl eq_refl eq_refl) as H.
  rewrite H. split; reflexivity.
Defined.

(** X14: without an API key the program stops before it serves anything:
    when GOOGLE_API_KEY is unset or empty, [main] raises an environment
    error and no request is looked at, whatever requests are waiting; with
    a key, every request gets its result, in order. *)
Theorem main_requires_api_key (W : World) (reqs : list request) :
  (google_api_key W = None \/ google_api_key W = Some "" ->
     main W reqs
     = (Raise (mkExn EnvironmentError
                 "Please set GOOGLE_API_KEY in your environment variables"),
        []))
  /\ (forall c k, google_api_key W = Some (String c k) ->
        main W reqs = (Ok (map (fun req => result_of (generate_post W req)) reqs),
                       snd (serve W reqs))).
Proof.
  split.
  - intros [H | H]; unfold main, load_environment; now rewrite H.
  - intros c k H. unfold main, load_environment. rewrite H. unfold bind, ret.
    cbn [app]. f_equal. f_equal.
    induction reqs as [|req rest IH]; [reflexivity|].
    cbn [serve map]. unfold result_of in *.
    destruct (generate_post W req) as [r evs].
    destruct (serve W rest) as [rs evs']. cbn [fst] in *. now rewrite IH.
Qed.

Lemma main_requires_api_key_witness :
  main no_key_world [valid_request; valid_request]
  = (Raise (mkExn EnvironmentError
              "Please set GOOGLE_API_KEY in your environment variables"), []).
Proof.
  apply (main_requires_api_key no_key_world [valid_request; valid_request]).
  left. reflexivity.
Defined.
